(** * Evaluation executable for detection models: a shallow embedding of
      [object_detection/eval.py]

    The script reads its configuration from global flags, locates three
    configuration messages through one of three readers, derives an output
    directory, counts the records of the input file, builds the category list
    and hands everything to the evaluator.  The embedding keeps the flags as a
    mutable record, threads it through a small state-and-exception monad that
    also logs the calls made to the outside world, and takes the outside world
    (file contents, parsers, the evaluator) as an environment. *)

From Stdlib Require Import String Ascii List ZArith Lia Bool Arith.
From Stdlib Require Import Strings.Byte.
From Stdlib Require Import DecimalString.
Import ListNotations.

Local Open Scope string_scope.
Local Open Scope list_scope.

(** ** Python built-ins used by the script *)

Module Py.

(** [bool(s)] for a string: the empty string is false. *)
Definition truthy (s : string) : bool := negb (String.eqb s "").

(** [s.startswith(c)] and [s.endswith(c)] for a one-character [c]. *)
Definition startswith (c : ascii) (s : string) : bool :=
  match s with
  | EmptyString => false
  | String a _ => Ascii.eqb a c
  end.

Fixpoint endswith (c : ascii) (s : string) : bool :=
  match s with
  | EmptyString => false
  | String a EmptyString => Ascii.eqb a c
  | String _ rest => endswith c rest
  end.

(** [s.split(sep)] for a one-character separator: every occurrence of the
    separator ends a piece, so a string with [n] separators has [n + 1]
    pieces, empty ones included. *)
Fixpoint split (sep : ascii) (s : string) : list string :=
  match s with
  | EmptyString => [EmptyString]
  | String c rest =>
      if Ascii.eqb c sep then EmptyString :: split sep rest
      else match split sep rest with
           | [] => [String c EmptyString]
           | piece :: pieces => String c piece :: pieces
           end
  end.

(** [sum(xs)]: left-to-right addition starting from 0. *)
Definition sum (xs : list Z) : Z := fold_left Z.add xs 0%Z.

(** [max(xs)]: raises [ValueError] on the empty list, here [None]. *)
Definition max (xs : list Z) : option Z :=
  match xs with
  | [] => None
  | x :: rest => Some (fold_left Z.max rest x)
  end.

(** [os.path.join(a, b)] of [posixpath]. *)
Definition os_path_join (a b : string) : string :=
  if startswith "/" b then b
  else if orb (negb (truthy a)) (endswith "/" a) then a ++ b
  else a ++ "/" ++ b.

(** Broken-down local time, as [time.localtime()] returns it. *)
Record struct_time := {
  tm_year : nat; tm_mon : nat; tm_mday : nat;
  tm_hour : nat; tm_min : nat; tm_sec : nat
}.

Definition dec (n : nat) : string := NilZero.string_of_uint (Nat.to_uint n).

(** Two digits, zero padded. *)
Definition dec2 (n : nat) : string :=
  if Nat.ltb n 10 then "0" ++ dec n else dec n.

(** The conversion directives of [strftime] that the script uses; any other
    directive is left as it is written. *)
Definition directive (d : ascii) (t : struct_time) : string :=
  if Ascii.eqb d "Y" then dec (tm_year t)
  else if Ascii.eqb d "m" then dec2 (tm_mon t)
  else if Ascii.eqb d "d" then dec2 (tm_mday t)
  else if Ascii.eqb d "H" then dec2 (tm_hour t)
  else if Ascii.eqb d "M" then dec2 (tm_min t)
  else if Ascii.eqb d "S" then dec2 (tm_sec t)
  else String "%" (String d EmptyString).

(** [time.strftime(fmt, t)]. *)
Fixpoint strftime (fmt : string) (t : struct_time) : string :=
  match fmt with
  | EmptyString => EmptyString
  | String c rest =>
      if Ascii.eqb c "%" then
        match rest with
        | EmptyString => String c EmptyString
        | String d rest' => directive d t ++ strftime rest' t
        end
      else String c (strftime rest t)
  end.

End Py.

(** ** Flags

    The script's command-line flags, lines 66-87.  [FLAGS] is a global object
    that [eval_main] and [main] assign to, so it is part of the state.  The
    float flag [gpu_fraction] is only passed on; it is kept as its text. *)

Record Flags := {
  eval_training_data : bool;
  checkpoint_dir : string;
  eval_dir : string;
  pipeline_config_path : string;
  eval_config_path : string;
  input_config_path : string;
  model_config_path : string;
  eval_tag : string;
  gpu_fraction : string;
  eval_label : string
}.

(** The flag values when no option is given on the command line. *)
Definition default_flags : Flags := {|
  eval_training_data := false;
  checkpoint_dir := "";
  eval_dir := "";
  pipeline_config_path := "";
  eval_config_path := "";
  input_config_path := "";
  model_config_path := "";
  eval_tag := "";
  gpu_fraction := "0.0";
  eval_label := ""
|}.

(** Assignments [FLAGS.x = v] for the five flags the script assigns to. *)
Definition set_checkpoint_dir (v : string) (fl : Flags) : Flags := {|
  eval_training_data := eval_training_data fl;
  checkpoint_dir := v;
  eval_dir := eval_dir fl;
  pipeline_config_path := pipeline_config_path fl;
  eval_config_path := eval_config_path fl;
  input_config_path := input_config_path fl;
  model_config_path := model_config_path fl;
  eval_tag := eval_tag fl;
  gpu_fraction := gpu_fraction fl;
  eval_label := eval_label fl
|}.

Definition set_eval_dir (v : string) (fl : Flags) : Flags := {|
  eval_training_data := eval_training_data fl;
  checkpoint_dir := checkpoint_dir fl;
  eval_dir := v;
  pipeline_config_path := pipeline_config_path fl;
  eval_config_path := eval_config_path fl;
  input_config_path := input_config_path fl;
  model_config_path := model_config_path fl;
  eval_tag := eval_tag fl;
  gpu_fraction := gpu_fraction fl;
  eval_label := eval_label fl
|}.

Definition set_pipeline_config_path (v : string) (fl : Flags) : Flags := {|
  eval_training_data := eval_training_data fl;
  checkpoint_dir := checkpoint_dir fl;
  eval_dir := eval_dir fl;
  pipeline_config_path := v;
  eval_config_path := eval_config_path fl;
  input_config_path := input_config_path fl;
  model_config_path := model_config_path fl;
  eval_tag := eval_tag fl;
  gpu_fraction := gpu_fraction fl;
  eval_label := eval_label fl
|}.

Definition set_eval_tag (v : string) (fl : Flags) : Flags := {|
  eval_training_data := eval_training_data fl;
  checkpoint_dir := checkpoint_dir fl;
  eval_dir := eval_dir fl;
  pipeline_config_path := pipeline_config_path fl;
  eval_config_path := eval_config_path fl;
  input_config_path := input_config_path fl;
  model_config_path := model_config_path fl;
  eval_tag := v;
  gpu_fraction := gpu_fraction fl;
  eval_label := eval_label fl
|}.

Definition set_eval_label (v : string) (fl : Flags) : Flags := {|
  eval_training_data := eval_training_data fl;
  checkpoint_dir := checkpoint_dir fl;
  eval_dir := eval_dir fl;
  pipeline_config_path := pipeline_config_path fl;
  eval_config_path := eval_config_path fl;
  input_config_path := input_config_path fl;
  model_config_path := model_config_path fl;
  eval_tag := eval_tag fl;
  gpu_fraction := gpu_fraction fl;
  eval_label := v
|}.

(** ** Configuration messages, label maps and categories *)

(** The fields of [input_reader_pb2.InputReader] that the script reads:
    [tf_record_input_reader.input_path] and [label_map_path]. *)
Record InputReader := {
  input_path : string;
  label_map_path : string
}.

(** One item of a label map, which the spec describes as a mapping of
    integer class ids to display names. *)
Record LabelMapItem := {
  id : Z;
  display_name : string
}.

Definition StringIntLabelMap := list LabelMapItem.

(** A category, the dictionary [{'id': ..., 'name': ...}] given to the
    evaluator. *)
Record Category := {
  cat_id : Z;
  cat_name : string
}.

(** The exceptions that occur. *)
Inductive exn :=
| AssertionError (msg : string)
| ValueError (msg : string)
| NotFoundError (path : string)
| ParseError (path : string)
| DataLossError (path : string)
| EvaluatorError (msg : string).

(** What iterating over [tf.python_io.tf_record_iterator(path)] does: it
    yields the serialized records of the file one after the other and then
    stops, or it raises (file that cannot be opened, corrupted record). *)
Inductive record_stream :=
| StopIteration
| Yield (record : list byte) (rest : record_stream)
| Throw (e : exn).

(** The stream of a well-formed file holding the given records. *)
Fixpoint stream_of (records : list (list byte)) : record_stream :=
  match records with
  | [] => StopIteration
  | r :: rest => Yield r (stream_of rest)
  end.

(** The three functions that read configuration (lines 90, 114 and 142). *)
Inductive config_reader :=
| FromPipelineFile
| FromMultipleFiles
| FromCheckpointDir.

(** How a call of the evaluator ends. *)
Inductive outcome :=
| Returns
| Raises (e : exn)
| NeverReturns.

(** The mutable part of the outside world: the directories that exist and the
    wall clock. *)
Record World := {
  dirs : list string;
  now : Py.struct_time
}.

Record State := {
  flags : Flags;
  world : World
}.

(** How a computation ends: with a value, with an exception, or not at all
    (a call of the evaluator that never returns). *)
Inductive result (A : Type) :=
| Ok (a : A)
| Raise (e : exn)
| Hang.

Arguments Ok {A} a.
Arguments Raise {A} e.
Arguments Hang {A}.

(** One round of a [while] loop ends by going on or by [break]. *)
Inductive control := Continue | Break.

(** The steps of the driver loop as the event log shows them: a graph reset,
    and a run of [eval_main] with the label and the two path flags it found
    and its bound on the number of evaluations. *)
Inductive step :=
| Reset
| Run (label pipeline_path ckpt_dir : string) (max_evals : option Z).

Section Eval.

(** The model and evaluation messages are only passed on. *)
Context {DetectionModel EvalConfig : Type}.

Record TrainEvalPipelineConfig := {
  model : DetectionModel;
  eval_config : EvalConfig;
  train_input_reader : InputReader;
  eval_input_reader : InputReader
}.

(** The arguments of [evaluator.evaluate] (lines 215-218).  The two partial
    applications are represented by what they close over. *)
Record EvalArgs := {
  create_input_dict_fn : InputReader;
  model_fn : DetectionModel * bool;
  arg_eval_config : EvalConfig;
  categories : list Category;
  arg_checkpoint_dir : string;
  arg_eval_dir : string;
  num_examples : Z;
  arg_gpu_fraction : string;
  max_number_of_evaluations : option Z
}.

(** Calls that leave the script, in the order they are made.  [EnterEvalMain]
    and [Call] are bookkeeping: they record that [eval_main] was entered
    (with its argument and the flags at that moment) and which configuration
    reader was called. *)
Inductive event :=
| EnterEvalMain (max_evals : option Z) (fl : Flags)
| Call (r : config_reader)
| GFileOpen (path : string)
| ReadClock
| MkdirP (path : string)
| RecordScan (path : string)
| LoadLabelMap (path : string)
| ResetDefaultGraph
| Evaluate (args : EvalArgs).

(** The outside world as the script sees it. *)
Record Env := {
  (** [tf.gfile.GFile(path, 'r').read()]; [None] when the file cannot be
      read. *)
  gfile_read : string -> option string;
  (** [text_format.Merge(text, msg)] on a fresh message of each type;
      [None] when the text does not parse. *)
  parse_pipeline : string -> option TrainEvalPipelineConfig;
  parse_eval : string -> option EvalConfig;
  parse_model : string -> option DetectionModel;
  parse_input : string -> option InputReader;
  tf_record_iterator : string -> record_stream;
  (** [label_map_util.load_labelmap(path)]; an error when the file is
      unreadable or malformed. *)
  load_labelmap : string -> StringIntLabelMap + exn;
  (** The name the label-map utility gives to a placeholder entry. *)
  placeholder_name : Z -> string;
  evaluate : EvalArgs -> outcome
}.

Variable env : Env.

(** ** The monad: state, exceptions and a log of events

    Assignments to [FLAGS] made before an exception is raised stay, as they
    do in Python, so the state is returned in every case, next to the
    events logged so far. *)

Record Out (A : Type) := {
  res : result A;
  st : State;
  evs : list event
}.

Arguments res {A} o.
Arguments st {A} o.
Arguments evs {A} o.

Definition M (A : Type) := State -> Out A.

Definition ret {A} (a : A) : M A :=
  fun s => {| res := Ok a; st := s; evs := [] |}.

Definition bind {A B} (m : M A) (k : A -> M B) : M B :=
  fun s =>
    let o := m s in
    match res o with
    | Ok a =>
        let o' := k a (st o) in
        {| res := res o'; st := st o'; evs := evs o ++ evs o' |}
    | Raise e => {| res := Raise e; st := st o; evs := evs o |}
    | Hang => {| res := Hang; st := st o; evs := evs o |}
    end.

Notation "x <- m ;; k" := (bind m (fun x => k))
  (at level 61, m at next level, right associativity).
Notation "m ;; k" := (bind m (fun _ => k))
  (at level 61, right associativity).

Definition raise {A} (e : exn) : M A :=
  fun s => {| res := Raise e; st := s; evs := [] |}.

Definition hang {A} : M A :=
  fun s => {| res := Hang; st := s; evs := [] |}.

(** The outcome [o] with the event [e] logged before it. *)
Definition logged {A} (e : event) (o : Out A) : Out A :=
  {| res := res o; st := st o; evs := e :: evs o |}.

Definition emit (e : event) : M unit :=
  fun s => {| res := Ok tt; st := s; evs := [e] |}.

Definition get_flags : M Flags :=
  fun s => {| res := Ok (flags s); st := s; evs := [] |}.

Definition modify_flags (f : Flags -> Flags) : M unit :=
  fun s => {| res := Ok tt;
              st := {| flags := f (flags s); world := world s |};
              evs := [] |}.

Definition get_world : M World :=
  fun s => {| res := Ok (world s); st := s; evs := [] |}.

Definition put_world (w : World) : M unit :=
  fun s => {| res := Ok tt;
              st := {| flags := flags s; world := w |};
              evs := [] |}.

(** [assert cond, msg] *)
Definition assert_ (cond : bool) (msg : string) : M unit :=
  if cond then ret tt else raise (AssertionError msg).

(** [for x in xs: body(x)] *)
Fixpoint for_each {A} (xs : list A) (body : A -> M unit) : M unit :=
  match xs with
  | [] => ret tt
  | x :: rest => body x ;; for_each rest body
  end.

(** [while True: body], where the body says whether it left the loop by
    [break].  The loop is cut after [fuel] rounds, where it answers
    [None]. *)
Fixpoint while_true (fuel : nat) (body : M control) : M (option unit) :=
  match fuel with
  | O => ret None
  | S fuel' =>
      c <- body ;;
      match c with
      | Break => ret (Some tt)
      | Continue => while_true fuel' body
      end
  end.

(** ** Calls to the outside *)

(** [with tf.gfile.GFile(path, 'r') as f: ... f.read()] *)
Definition gfile (path : string) : M string :=
  emit (GFileOpen path) ;;
  match gfile_read env path with
  | Some text => ret text
  | None => raise (NotFoundError path)
  end.

(** [text_format.Merge(text, msg)] on a fresh message. *)
Definition merge {A} (parse : string -> option A) (path text : string)
  : M A :=
  match parse text with
  | Some msg => ret msg
  | None => raise (ParseError path)
  end.

(** [time.strftime(fmt)]: formats the local time of the moment. *)
Definition time_strftime (fmt : string) : M string :=
  emit ReadClock ;;
  w <- get_world ;;
  ret (Py.strftime fmt (now w)).

(** The world after [mkdir -p path]: the directory is added unless it is
    there already. *)
Definition make_dir (path : string) (w : World) : World :=
  if existsb (String.eqb path) (dirs w) then w
  else {| dirs := path :: dirs w; now := now w |}.

(** Modelled from the spec: [utils.mkdir_p] of [global_utils/custom_utils.py]
    is not among the sources.  It creates the directory, a directory that
    exists already is not an error, and it returns the path. *)
Definition mkdir_p (path : string) : M string :=
  emit (MkdirP path) ;;
  w <- get_world ;;
  put_world (make_dir path w) ;;
  ret path.

(** [sum(1 for _ in tf.python_io.tf_record_iterator(path))]: one is added
    for every record the iterator yields, whatever the record holds. *)
Fixpoint sum_ones (it : record_stream) (acc : Z) : Z + exn :=
  match it with
  | StopIteration => inl acc
  | Yield _ rest => sum_ones rest (acc + 1)%Z
  | Throw e => inr e
  end.

Definition count_records (path : string) : M Z :=
  emit (RecordScan path) ;;
  match sum_ones (tf_record_iterator env path) 0%Z with
  | inl n => ret n
  | inr e => raise e
  end.

(** Modelled from the spec: [label_map_util.load_labelmap] of
    [object_detection/utils/label_map_util.py] is not among the sources.  It
    reads a label-map file into the items of the label map; an unreadable or
    malformed file is an error that the loader raises. *)
Definition label_map_util_load_labelmap (path : string)
  : M StringIntLabelMap :=
  emit (LoadLabelMap path) ;;
  match load_labelmap env path with
  | inl lm => ret lm
  | inr e => raise e
  end.

(** The integers [1, 2, ..., n] (none when [n < 1]). *)
Definition ids_up_to (n : Z) : list Z :=
  map Z.of_nat (seq 1 (Z.to_nat n)).

(** The category for the id [k]: the first item of the label map with this
    id under its display name, or a placeholder entry when there is none. *)
Definition category_of (label_map : StringIntLabelMap) (k : Z) : Category :=
  match find (fun item => Z.eqb (id item) k) label_map with
  | Some item => {| cat_id := k; cat_name := display_name item |}
  | None => {| cat_id := k; cat_name := placeholder_name env k |}
  end.

(** Modelled from the spec: [label_map_util.convert_label_map_to_categories]
    of [object_detection/utils/label_map_util.py] is not among the sources.
    It produces a category list covering the ids 1 to [max_num_classes], the
    gaps of the label map filled with placeholder entries. *)
Definition convert_label_map_to_categories
  (label_map : StringIntLabelMap) (max_num_classes : Z) : list Category :=
  map (category_of label_map) (ids_up_to max_num_classes).

(** Modelled from the spec: [evaluator.evaluate] of
    [object_detection/evaluator.py] is not among the sources, and the spec
    leaves what it does open; how a call ends is taken from the
    environment. *)
Definition evaluator_evaluate (args : EvalArgs) : M unit :=
  emit (Evaluate args) ;;
  match evaluate env args with
  | Returns => ret tt
  | Raises e => raise e
  | NeverReturns => hang
  end.

Definition tf_reset_default_graph : M unit := emit ResetDefaultGraph.

(** ** The script *)

(** Lines 90-111. *)
Definition get_configs_from_pipeline_file
  : M (DetectionModel * EvalConfig * InputReader) :=
  emit (Call FromPipelineFile) ;;
  FLAGS <- get_flags ;;
  text <- gfile (pipeline_config_path FLAGS) ;;
  pipeline_config <-
    merge (parse_pipeline env) (pipeline_config_path FLAGS) text ;;
  let model_config := model pipeline_config in
  let eval_config := eval_config pipeline_config in
  let input_config :=
    if eval_training_data FLAGS then train_input_reader pipeline_config
    else eval_input_reader pipeline_config in
  ret (model_config, eval_config, input_config).

(** Lines 114-139. *)
Definition get_configs_from_multiple_files
  : M (DetectionModel * EvalConfig * InputReader) :=
  emit (Call FromMultipleFiles) ;;
  FLAGS <- get_flags ;;
  text <- gfile (eval_config_path FLAGS) ;;
  eval_config <- merge (parse_eval env) (eval_config_path FLAGS) text ;;
  text <- gfile (model_config_path FLAGS) ;;
  model_config <- merge (parse_model env) (model_config_path FLAGS) text ;;
  text <- gfile (input_config_path FLAGS) ;;
  input_config <- merge (parse_input env) (input_config_path FLAGS) text ;;
  ret (model_config, eval_config, input_config).

(** Lines 142-173. *)
Definition get_configs_from_checkpoint_dir
  : M (DetectionModel * EvalConfig * InputReader) :=
  emit (Call FromCheckpointDir) ;;
  FLAGS <- get_flags ;;
  let eval_config_path :=
    Py.os_path_join (checkpoint_dir FLAGS) "eval.config" in
  text <- gfile eval_config_path ;;
  eval_config <- merge (parse_eval env) eval_config_path text ;;
  let model_config_path :=
    Py.os_path_join (checkpoint_dir FLAGS) "model.config" in
  text <- gfile model_config_path ;;
  model_config <- merge (parse_model env) model_config_path text ;;
  let input_config_path :=
    if eval_training_data FLAGS
    then Py.os_path_join (checkpoint_dir FLAGS) "train_input.config"
    else Py.os_path_join (checkpoint_dir FLAGS) "eval_input.config" in
  text <- gfile input_config_path ;;
  input_config <- merge (parse_input env) input_config_path text ;;
  ret (model_config, eval_config, input_config).

(** Lines 176-182 of [eval_main]: what a non-empty [eval_label] does to the
    other flags. *)
Definition apply_eval_label (FLAGS : Flags) : Flags :=
  if Py.truthy (eval_label FLAGS) then
    let FLAGS :=
      if String.eqb (pipeline_config_path FLAGS) ""
      then set_pipeline_config_path
             ("../configs/test/" ++ eval_label FLAGS ++ ".config") FLAGS
      else FLAGS in
    let FLAGS :=
      if String.eqb (checkpoint_dir FLAGS) ""
      then set_checkpoint_dir
             ("../checkpoints/train/" ++ eval_label FLAGS) FLAGS
      else FLAGS in
    let FLAGS :=
      set_eval_dir ("../checkpoints/eval/" ++ eval_label FLAGS) FLAGS in
    set_eval_tag (eval_label FLAGS) FLAGS
  else FLAGS.

(** Lines 186-191 of [eval_main]. *)
Definition get_configs : M (DetectionModel * EvalConfig * InputReader) :=
  FLAGS <- get_flags ;;
  if Py.truthy (pipeline_config_path FLAGS)
  then get_configs_from_pipeline_file
  else if Py.truthy (eval_config_path FLAGS)
  then get_configs_from_multiple_files
  else get_configs_from_checkpoint_dir.

(** Lines 193-196 of [eval_main]. *)
Definition derive_eval_dir : M unit :=
  FLAGS <- get_flags ;;
  if negb (Py.truthy (eval_dir FLAGS)) then
    (if negb (Py.truthy (eval_tag FLAGS)) then
       tag <- time_strftime "%Y%m%d-%H%M%S" ;;
       modify_flags (set_eval_tag tag)
     else ret tt) ;;
    FLAGS <- get_flags ;;
    path <- mkdir_p (checkpoint_dir FLAGS ++ "_eval_" ++ eval_tag FLAGS) ;;
    modify_flags (set_eval_dir path)
  else ret tt.

(** Lines 198-218 of [eval_main]: the example count, the categories and the
    call of the evaluator. *)
Definition run_evaluation
  (max_number_of_evaluations : option Z)
  (cfg : DetectionModel * EvalConfig * InputReader) : M unit :=
  let '(model_config, eval_config, input_config) := cfg in
  let model_fn := (model_config, false) in
  let create_input_dict_fn := input_config in
  let input_path := input_path input_config in
  num_examples <- count_records input_path ;;
  label_map <- label_map_util_load_labelmap (label_map_path input_config) ;;
  max_num_classes <-
    match Py.max (map id label_map) with
    | Some m => ret m
    | None => raise (ValueError "max() arg is an empty sequence")
    end ;;
  let categories :=
    convert_label_map_to_categories label_map max_num_classes in
  FLAGS <- get_flags ;;
  evaluator_evaluate {|
    create_input_dict_fn := create_input_dict_fn;
    model_fn := model_fn;
    arg_eval_config := eval_config;
    categories := categories;
    arg_checkpoint_dir := checkpoint_dir FLAGS;
    arg_eval_dir := eval_dir FLAGS;
    num_examples := num_examples;
    arg_gpu_fraction := gpu_fraction FLAGS;
    max_number_of_evaluations := max_number_of_evaluations
  |}.

(** Lines 175-218. *)
Definition eval_main (max_number_of_evaluations : option Z) : M unit :=
  FLAGS <- get_flags ;;
  emit (EnterEvalMain max_number_of_evaluations FLAGS) ;;
  modify_flags apply_eval_label ;;
  FLAGS <- get_flags ;;
  assert_ (Py.truthy (checkpoint_dir FLAGS))
          "`checkpoint_dir` is missing." ;;
  cfg <- get_configs ;;
  derive_eval_dir ;;
  run_evaluation max_number_of_evaluations cfg.

(** Lines 226-231 of [main]: the body of the [for] loop. *)
Definition run_label (label : string) : M unit :=
  modify_flags (set_eval_label label) ;;
  modify_flags (set_pipeline_config_path "") ;;
  modify_flags (set_checkpoint_dir "") ;;
  tf_reset_default_graph ;;
  eval_main (Some 1%Z).

(** Lines 220-232.  [fuel] bounds the rounds of [while True]; the answer
    [None] means the bound was reached. *)
Definition main (fuel : nat) : M (option unit) :=
  FLAGS <- get_flags ;;
  let eval_label_list := Py.split "," (eval_label FLAGS) in
  if orb (negb (Py.truthy (eval_label FLAGS)))
         (Nat.eqb (length eval_label_list) 1)
  then eval_main None ;; ret (Some tt)
  else
    while_true fuel
      (for_each eval_label_list run_label ;;
       ret Break).

(** ** What the event log shows *)

(** The configuration readers that were called. *)
Fixpoint calls (l : list event) : list config_reader :=
  match l with
  | [] => []
  | Call r :: rest => r :: calls rest
  | _ :: rest => calls rest
  end.

(** The argument records the evaluator was called with. *)
Fixpoint evaluations (l : list event) : list EvalArgs :=
  match l with
  | [] => []
  | Evaluate a :: rest => a :: evaluations rest
  | _ :: rest => evaluations rest
  end.

(** File-system accesses: files opened, directories created, record files
    scanned, label maps loaded. *)
Definition is_file_io (e : event) : bool :=
  match e with
  | GFileOpen _ | MkdirP _ | RecordScan _ | LoadLabelMap _ => true
  | _ => false
  end.

(** Readings of the wall clock. *)
Definition is_clock (e : event) : bool :=
  match e with
  | ReadClock => true
  | _ => false
  end.

(** The step of the driver loop that an event stands for, if any. *)
Definition step_of (e : event) : list step :=
  match e with
  | ResetDefaultGraph => [Reset]
  | EnterEvalMain mx fl =>
      [Run (eval_label fl) (pipeline_config_path fl) (checkpoint_dir fl) mx]
  | _ => []
  end.

Definition steps (l : list event) : list step := flat_map step_of l.

(** A configuration reader logs its call and then the files it opens, in a
    fixed order, up to the first one that fails: [reads r paths o] says that
    the outcome [o] has such a log for the reader [r] and the files [paths],
    all of them opened when the reader returns. *)
Definition reads {A} (r : config_reader) (paths : list string) (o : Out A)
  : Prop :=
  exists n,
    n <= length paths /\
    evs o = Call r :: map GFileOpen (firstn n paths) /\
    (forall c, res o = Ok c -> n = length paths).

(** The steps of one pass over a list of labels in the multi-run branch. *)
Definition pass_steps (labels : list string) : list step :=
  flat_map (fun l => [Reset; Run l "" "" (Some 1%Z)]) labels.

End Eval.

Arguments res {_ _ _} _.
Arguments st {_ _ _} _.
Arguments evs {_ _ _} _.

(** ** A small concrete world

    An outside world to run the script in: one pipeline file for the label
    [a], the three conventional files of the checkpoint directory [/tmp/ckpt],
    a record file with ten records, and the label map with the ids 1, 2
    and 5.  The model and evaluation messages carry nothing. *)

Module Demo.

Definition eval_reader : InputReader :=
  {| input_path := "eval.record"; label_map_path := "labels.pbtxt" |}.

Definition train_reader : InputReader :=
  {| input_path := "train.record"; label_map_path := "labels.pbtxt" |}.

Definition pipeline : @TrainEvalPipelineConfig unit unit :=
  {| model := tt; eval_config := tt;
     train_input_reader := train_reader;
     eval_input_reader := eval_reader |}.

Definition text_files : list string :=
  [ "pipeline.config"; "../configs/test/a.config";
    "e.config"; "m.config"; "i.config";
    "/tmp/ckpt/eval.config"; "/tmp/ckpt/model.config";
    "/tmp/ckpt/eval_input.config"; "/tmp/ckpt/train_input.config" ].

(** Every text file holds its own name, and a text parses as the message
    its name announces. *)
Definition read (path : string) : option string :=
  if existsb (String.eqb path) text_files then Some path else None.

Definition one_of (names : list string) {A} (a : A) (text : string)
  : option A :=
  if existsb (String.eqb text) names then Some a else None.

Definition ten_records : list (list byte) :=
  map (fun b => [b]) [x00; x01; x02; x03; x04; x05; x06; x07; x08; x09].

Definition records_of (path : string) : record_stream :=
  if String.eqb path "eval.record" then stream_of ten_records
  else if String.eqb path "train.record" then stream_of [[x2a]; []; [x2a]]
  else Throw (NotFoundError path).

Definition label_map_125 : StringIntLabelMap :=
  [ {| id := 1; display_name := "cat" |};
    {| id := 2; display_name := "dog" |};
    {| id := 5; display_name := "bird" |} ].

Definition labels_of (path : string) : StringIntLabelMap + exn :=
  if String.eqb path "labels.pbtxt" then inl label_map_125
  else inr (NotFoundError path).

Definition env : @Env unit unit := {|
  gfile_read := read;
  parse_pipeline :=
    one_of ["pipeline.config"; "../configs/test/a.config"] pipeline;
  parse_eval := one_of ["e.config"; "/tmp/ckpt/eval.config"] tt;
  parse_model := one_of ["m.config"; "/tmp/ckpt/model.config"] tt;
  parse_input :=
    fun text =>
      if String.eqb text "/tmp/ckpt/train_input.config"
      then Some train_reader
      else one_of ["i.config"; "/tmp/ckpt/eval_input.config"]
                  eval_reader text;
  tf_record_iterator := records_of;
  load_labelmap := labels_of;
  placeholder_name := fun k => "placeholder";
  evaluate := fun _ => Returns
|}.

(** 3 November 2026, 10:31:07, and no directory yet. *)
Definition world0 : World := {|
  dirs := [];
  now := {| Py.tm_year := 2026; Py.tm_mon := 11; Py.tm_mday := 3;
            Py.tm_hour := 10; Py.tm_min := 31; Py.tm_sec := 7 |}
|}.

Definition start (fl : Flags) : State := {| flags := fl; world := world0 |}.

(** Flag settings.  [ckpt_only] gives the checkpoint directory only,
    [all_paths] gives every path flag, [tagged] a run tag, [pipeline_only]
    the pipeline file without a checkpoint directory, and [with_label l]
    the label [l] next to an output directory and a tag of the user. *)
Definition ckpt_only : Flags := set_checkpoint_dir "/tmp/ckpt" default_flags.

Definition all_paths : Flags := {|
  eval_training_data := false;
  checkpoint_dir := "/tmp/ckpt";
  eval_dir := "";
  pipeline_config_path := "pipeline.config";
  eval_config_path := "e.config";
  input_config_path := "i.config";
  model_config_path := "m.config";
  eval_tag := "";
  gpu_fraction := "0.0";
  eval_label := ""
|}.

Definition three_files : Flags := set_pipeline_config_path "" all_paths.

Definition tagged : Flags := set_eval_tag "run1" ckpt_only.

Definition pipeline_only : Flags :=
  set_pipeline_config_path "pipeline.config" default_flags.

Definition with_label (l : string) : Flags :=
  set_eval_label l
    (set_eval_dir "my_eval_dir" (set_eval_tag "my_tag" ckpt_only)).

(** The arguments the evaluator gets in a run from [ckpt_only] or
    [tagged], up to the output directory. *)
Definition args_in (dir : string) : @EvalArgs unit unit := {|
  create_input_dict_fn := eval_reader;
  model_fn := (tt, false);
  arg_eval_config := tt;
  categories :=
    [ {| cat_id := 1; cat_name := "cat" |};
      {| cat_id := 2; cat_name := "dog" |};
      {| cat_id := 3; cat_name := "placeholder" |};
      {| cat_id := 4; cat_name := "placeholder" |};
      {| cat_id := 5; cat_name := "bird" |} ];
  arg_checkpoint_dir := "/tmp/ckpt";
  arg_eval_dir := dir;
  num_examples := 10;
  arg_gpu_fraction := "0.0";
  max_number_of_evaluations := None
|}.

End Demo.

(** The selection policy in the spec's words: the pipeline file if its path
    is non-empty, otherwise the three files if the path of the evaluation
    configuration is non-empty, otherwise the checkpoint directory. *)
Definition spec_selected_reader (fl : Flags) : config_reader :=
  if Py.truthy (pipeline_config_path fl) then FromPipelineFile
  else if Py.truthy (eval_config_path fl) then FromMultipleFiles
  else FromCheckpointDir.

(** The state in which [eval_main] checks [checkpoint_dir] and reads the
    configuration: the label has been applied to the flags. *)
Definition labelled (s : State) : State :=
  {| flags := apply_eval_label (flags s); world := world s |}.

(** The state in which the driver loop calls [eval_main] for a label. *)
Definition reset_for (label : string) (s : State) : State :=
  {| flags := set_checkpoint_dir ""
                (set_pipeline_config_path ""
                   (set_eval_label label (flags s)));
     world := world s |}.

(** The run tag and the directory that lines 193-196 derive in a state whose
    [eval_dir] flag is empty. *)
Definition derived_tag (s : State) : string :=
  if Py.truthy (eval_tag (flags s)) then eval_tag (flags s)
  else Py.strftime "%Y%m%d-%H%M%S" (now (world s)).

Definition derived_dir (s : State) : string :=
  (checkpoint_dir (flags s) ++ "_eval_" ++ derived_tag s)%string.

(** The argument record of the evaluator in terms of what lines 198-218 have
    read: the configuration, the flags, the records of the input file, the
    label map and its largest id. *)
Definition evaluator_args {DetectionModel EvalConfig : Type}
  (env : @Env DetectionModel EvalConfig) (max_evals : option Z)
  (cfg : DetectionModel * EvalConfig * InputReader) (s : State)
  (records : list (list byte)) (label_map : StringIntLabelMap) (m : Z)
  : @EvalArgs DetectionModel EvalConfig :=
  {| create_input_dict_fn := snd cfg;
     model_fn := (fst (fst cfg), false);
     arg_eval_config := snd (fst cfg);
     categories := convert_label_map_to_categories env label_map m;
     arg_checkpoint_dir := checkpoint_dir (flags s);
     arg_eval_dir := eval_dir (flags s);
     num_examples := Z.of_nat (length records);
     arg_gpu_fraction := gpu_fraction (flags s);
     max_number_of_evaluations := max_evals |}.

(** How a call ends, given how the evaluator ends. *)
Definition result_of (o : outcome) : result unit :=
  match o with
  | Returns => Ok tt
  | Raises e => Raise e
  | NeverReturns => Hang
  end.

(** The message [msg] is what the file at [path] parses to. *)
Definition parsed_from {DetectionModel EvalConfig : Type}
  (env : @Env DetectionModel EvalConfig) {A} (parse : string -> option A)
  (path : string) (msg : A) : Prop :=
  exists text, gfile_read env path = Some text /\ parse text = Some msg.

(** The result of [main] from the result of one pass. *)
Definition pass_result (r : result unit) : result (option unit) :=
  match r with
  | Ok _ => Ok (Some tt)
  | Raise e => Raise e
  | Hang => Hang
  end.


(** [s.count(sep)] for a one-character [sep]. *)
Fixpoint str_count (sep : ascii) (s : string) : nat :=
  match s with
  | EmptyString => 0
  | String c rest =>
      if Ascii.eqb c sep then S (str_count sep rest) else str_count sep rest
  end.

(** [sep.join(pieces)] for a one-character [sep]. *)
Fixpoint str_join (sep : ascii) (pieces : list string) : string :=
  match pieces with
  | [] => EmptyString
  | [piece] => piece
  | piece :: rest => (piece ++ String sep (str_join sep rest))%string
  end.


(** The state [s] with the [checkpoint_dir] flag set to [dir]. *)
Definition with_checkpoint_dir (dir : string) (s : State) : State :=
  {| flags := set_checkpoint_dir dir (flags s); world := world s |}.


(** The stream of a file whose iterator yields the given records and then
    raises [e] (a corrupted record, say). *)
Fixpoint stream_failing (records : list (list byte)) (e : exn)
  : record_stream :=
  match records with
  | [] => Throw e
  | r :: rest => Yield r (stream_failing rest e)
  end.

(** ** Concrete worlds where something is wrong *)

Module Faults.

(** The pipeline file of the flag does not exist. *)
Definition missing_pipeline : Flags :=
  set_pipeline_config_path "missing.config" Demo.ckpt_only.

(** The label map is empty. *)
Definition env_empty_labels : @Env unit unit := {|
  gfile_read := gfile_read Demo.env;
  parse_pipeline := parse_pipeline Demo.env;
  parse_eval := parse_eval Demo.env;
  parse_model := parse_model Demo.env;
  parse_input := parse_input Demo.env;
  tf_record_iterator := tf_record_iterator Demo.env;
  load_labelmap := fun _ => inl [];
  placeholder_name := placeholder_name Demo.env;
  evaluate := evaluate Demo.env
|}.

(** Every record file breaks after its second record. *)
Definition env_corrupt : @Env unit unit := {|
  gfile_read := gfile_read Demo.env;
  parse_pipeline := parse_pipeline Demo.env;
  parse_eval := parse_eval Demo.env;
  parse_model := parse_model Demo.env;
  parse_input := parse_input Demo.env;
  tf_record_iterator :=
    fun path => stream_failing [[x00]; [x01]] (DataLossError path);
  load_labelmap := load_labelmap Demo.env;
  placeholder_name := placeholder_name Demo.env;
  evaluate := evaluate Demo.env
|}.

End Faults.

(** * Properties *)

(** ** Strings *)

Lemma truthy_true (s : string) : Py.truthy s = true <-> s <> "".
Proof.
  unfold Py.truthy. rewrite negb_true_iff.
  split; intro H.
  - intro E. subst s. discriminate H.
  - apply String.eqb_neq. exact H.
Qed.

Lemma truthy_false (s : string) : Py.truthy s = false <-> s = "".
Proof.
  unfold Py.truthy. rewrite negb_false_iff. apply String.eqb_eq.
Qed.

Lemma split_not_nil (sep : ascii) (s : string) : Py.split sep s <> [].
Proof.
  destruct s as [|c rest]; simpl.
  - discriminate.
  - destruct (Ascii.eqb c sep).
    + discriminate.
    + destruct (Py.split sep rest); discriminate.
Qed.

(** A string that splits into a single piece is that piece. *)
Lemma split_singleton (sep : ascii) (s piece : string) :
  Py.split sep s = [piece] -> s = piece.
Proof.
  revert piece. induction s as [|c rest IH]; simpl; intros piece H.
  - congruence.
  - destruct (Ascii.eqb c sep).
    + exfalso. injection H as _ H. exact (split_not_nil _ _ H).
    + destruct (Py.split sep rest) as [|p ps] eqn:E.
      * exfalso. exact (split_not_nil _ _ E).
      * injection H as H1 H2. subst ps.
        rewrite (IH p eq_refl). exact H1.
Qed.

(** A non-empty flag value with an empty piece has more than one piece. *)
Lemma split_empty_piece (sep : ascii) (s : string) :
  s <> "" -> In "" (Py.split sep s) -> 1 < length (Py.split sep s).
Proof.
  intros Hs Hin.
  destruct (Py.split sep s) as [|p [|q ps]] eqn:E.
  - exfalso. exact (split_not_nil _ _ E).
  - exfalso. destruct Hin as [Hp|[]]. subst p.
    apply Hs. exact (split_singleton _ _ _ E).
  - simpl. lia.
Qed.

(** Joining a directory and a file name that does not start with a slash:
    the two are put together with one slash between them, which is left out
    when the directory is empty or ends with a slash already. *)
Lemma os_path_join_name (dir name : string) :
  Py.startswith "/" name = false ->
  Py.os_path_join dir name =
  if orb (String.eqb dir "") (Py.endswith "/" dir)
  then (dir ++ name)%string
  else (dir ++ "/" ++ name)%string.
Proof.
  intro H. unfold Py.os_path_join, Py.truthy. rewrite H, negb_involutive.
  reflexivity.
Qed.

Lemma append_empty_r (s : string) : (s ++ "")%string = s.
Proof.
  induction s as [|c rest IH]; simpl.
  - reflexivity.
  - rewrite IH. reflexivity.
Qed.

(** The format of the run tag, directive by directive. *)
Lemma strftime_run_tag (t : Py.struct_time) :
  Py.strftime "%Y%m%d-%H%M%S" t =
  (Py.dec (Py.tm_year t) ++ Py.dec2 (Py.tm_mon t) ++ Py.dec2 (Py.tm_mday t)
   ++ "-" ++
   Py.dec2 (Py.tm_hour t) ++ Py.dec2 (Py.tm_min t) ++ Py.dec2 (Py.tm_sec t))
  %string.
Proof.
  cbn. rewrite append_empty_r. reflexivity.
Qed.

(** ** The blocks of the script, one by one *)

Section Properties.

Context {DetectionModel EvalConfig : Type}.
Variable env : @Env DetectionModel EvalConfig.

Lemma state_eta (s : State) : {| flags := flags s; world := world s |} = s.
Proof. destruct s; reflexivity. Qed.

Lemma labelled_no_label (s : State) :
  eval_label (flags s) = "" -> labelled s = s.
Proof.
  intro H. unfold labelled, apply_eval_label. rewrite H. simpl.
  apply state_eta.
Qed.

(** The log projections on a log of file openings. *)
Lemma calls_opens (paths : list string) :
  calls (map (@GFileOpen DetectionModel EvalConfig) paths) = [].
Proof. induction paths; simpl; auto. Qed.

Lemma steps_opens (paths : list string) :
  steps (map (@GFileOpen DetectionModel EvalConfig) paths) = [].
Proof. induction paths; simpl; auto. Qed.

Lemma calls_app (l1 l2 : list (@event DetectionModel EvalConfig)) :
  calls (l1 ++ l2) = calls l1 ++ calls l2.
Proof.
  induction l1 as [|e l1 IH]; simpl.
  - reflexivity.
  - destruct e; simpl; rewrite IH; reflexivity.
Qed.

Lemma steps_app (l1 l2 : list (@event DetectionModel EvalConfig)) :
  steps (l1 ++ l2) = steps l1 ++ steps l2.
Proof. unfold steps. apply flat_map_app. Qed.

(** *** One step of a computation

    Rewriting with these equations runs a block one call at a time. *)

Lemma out_eta {A} (o : @Out DetectionModel EvalConfig A) :
  {| res := res o; st := st o; evs := evs o |} = o.
Proof. destruct o; reflexivity. Qed.

Lemma bind_ret {A B} (a : A) (k : A -> @M DetectionModel EvalConfig B)
  (s : State) :
  bind (ret a) k s = k a s.
Proof. unfold bind, ret; cbn. apply out_eta. Qed.

Lemma bind_raise {A B} (e : exn) (k : A -> @M DetectionModel EvalConfig B)
  (s : State) :
  bind (raise e) k s = {| res := Raise e; st := s; evs := [] |}.
Proof. reflexivity. Qed.

Lemma bind_get_flags {B} (k : Flags -> @M DetectionModel EvalConfig B)
  (s : State) :
  bind get_flags k s = k (flags s) s.
Proof. unfold bind, get_flags; cbn. apply out_eta. Qed.

Lemma bind_modify_flags {B} (f : Flags -> Flags)
  (k : unit -> @M DetectionModel EvalConfig B) (s : State) :
  bind (modify_flags f) k s
  = k tt {| flags := f (flags s); world := world s |}.
Proof. unfold bind, modify_flags; cbn. apply out_eta. Qed.

Lemma bind_emit {B} (e : event) (k : unit -> @M DetectionModel EvalConfig B)
  (s : State) :
  bind (emit e) k s = logged e (k tt s).
Proof. reflexivity. Qed.

Lemma bind_gfile {B} (path : string)
  (k : string -> @M DetectionModel EvalConfig B) (s : State) :
  bind (gfile env path) k s =
  match gfile_read env path with
  | Some text => logged (GFileOpen path) (k text s)
  | None => {| res := Raise (NotFoundError path); st := s;
               evs := [GFileOpen path] |}
  end.
Proof.
  unfold gfile, bind at 1, bind, emit, ret, raise, logged; cbn.
  destruct (gfile_read env path); reflexivity.
Qed.

Lemma bind_merge {A B} (parse : string -> option A) (path text : string)
  (k : A -> @M DetectionModel EvalConfig B) (s : State) :
  bind (merge parse path text) k s =
  match parse text with
  | Some msg => k msg s
  | None => {| res := Raise (ParseError path); st := s; evs := [] |}
  end.
Proof.
  unfold merge. destruct (parse text).
  - apply bind_ret.
  - reflexivity.
Qed.

(** *** The three configuration readers *)

Ltac stopped n :=
  cbn [res st evs logged];
  split; [reflexivity | split; [discriminate |]];
  exists n; cbn [length firstn map]; repeat split; auto; discriminate.

Lemma pipeline_file_reads (s : State) :
  let o := get_configs_from_pipeline_file env s in
  st o = s /\ res o <> Hang /\
  reads FromPipelineFile [pipeline_config_path (flags s)] o.
Proof.
  unfold get_configs_from_pipeline_file, reads.
  rewrite bind_emit, bind_get_flags, bind_gfile.
  destruct (gfile_read env _) as [text|]; [|stopped 1].
  rewrite bind_merge.
  destruct (parse_pipeline env text); stopped 1.
Qed.

Lemma multiple_files_reads (s : State) :
  let o := get_configs_from_multiple_files env s in
  st o = s /\ res o <> Hang /\
  reads FromMultipleFiles
    [eval_config_path (flags s); model_config_path (flags s);
     input_config_path (flags s)] o.
Proof.
  unfold get_configs_from_multiple_files, reads.
  rewrite bind_emit, bind_get_flags, bind_gfile.
  destruct (gfile_read env _) as [t1|]; [|stopped 1].
  rewrite bind_merge. destruct (parse_eval env t1); [|stopped 1].
  rewrite bind_gfile.
  destruct (gfile_read env _) as [t2|]; [|stopped 2].
  rewrite bind_merge. destruct (parse_model env t2); [|stopped 2].
  rewrite bind_gfile.
  destruct (gfile_read env _) as [t3|]; [|stopped 3].
  rewrite bind_merge. destruct (parse_input env t3); stopped 3.
Qed.

Lemma checkpoint_dir_reads (s : State) :
  let o := get_configs_from_checkpoint_dir env s in
  let dir := checkpoint_dir (flags s) in
  st o = s /\ res o <> Hang /\
  reads FromCheckpointDir
    [Py.os_path_join dir "eval.config"; Py.os_path_join dir "model.config";
     if eval_training_data (flags s)
     then Py.os_path_join dir "train_input.config"
     else Py.os_path_join dir "eval_input.config"] o.
Proof.
  unfold get_configs_from_checkpoint_dir, reads.
  rewrite bind_emit, bind_get_flags. cbv zeta. rewrite bind_gfile.
  destruct (gfile_read env _) as [t1|]; [|stopped 1].
  rewrite bind_merge. destruct (parse_eval env t1); [|stopped 1].
  rewrite bind_gfile.
  destruct (gfile_read env _) as [t2|]; [|stopped 2].
  rewrite bind_merge. destruct (parse_model env t2); [|stopped 2].
  rewrite bind_gfile.
  destruct (gfile_read env _) as [t3|]; [|stopped 3].
  rewrite bind_merge. destruct (parse_input env t3); stopped 3.
Qed.

(** *** Lines 186-191: the choice of the reader *)

Lemma get_configs_reads (s : State) :
  let o := get_configs env s in
  st o = s /\ res o <> Hang /\
  exists paths,
    evs o = Call (spec_selected_reader (flags s)) :: map GFileOpen paths.
Proof.
  unfold get_configs, spec_selected_reader.
  rewrite bind_get_flags.
  destruct (Py.truthy (pipeline_config_path (flags s)));
    [| destruct (Py.truthy (eval_config_path (flags s)))].
  - destruct (pipeline_file_reads s) as (Hs & Hr & n & _ & He & _).
    repeat split; eauto.
  - destruct (multiple_files_reads s) as (Hs & Hr & n & _ & He & _).
    repeat split; eauto.
  - destruct (checkpoint_dir_reads s) as (Hs & Hr & n & _ & He & _).
    repeat split; eauto.
Qed.

(** *** Lines 193-196: the output directory *)

Lemma bind_time_strftime {B} (fmt : string)
  (k : string -> @M DetectionModel EvalConfig B) (s : State) :
  bind (time_strftime fmt) k s
  = logged ReadClock (k (Py.strftime fmt (now (world s))) s).
Proof.
  unfold time_strftime, bind at 1, bind, emit, get_world, ret, logged; cbn.
  destruct (k _ s); reflexivity.
Qed.

Lemma bind_mkdir_p {B} (path : string)
  (k : string -> @M DetectionModel EvalConfig B) (s : State) :
  bind (mkdir_p path) k s
  = logged (MkdirP path)
      (k path {| flags := flags s; world := make_dir path (world s) |}).
Proof.
  unfold mkdir_p, bind at 1, bind, emit, get_world, put_world, ret, logged;
    cbn.
  destruct (k _ _); reflexivity.
Qed.

Lemma make_dir_in (path : string) (w : World) :
  In path (dirs (make_dir path w)).
Proof.
  unfold make_dir.
  destruct (existsb (String.eqb path) (dirs w)) eqn:E.
  - apply existsb_exists in E. destruct E as (x & Hin & Hx).
    apply String.eqb_eq in Hx. subst x. exact Hin.
  - simpl. left. reflexivity.
Qed.

Lemma make_dir_existing (path : string) (w : World) :
  In path (dirs w) -> make_dir path w = w.
Proof.
  intro Hin. unfold make_dir.
  destruct (existsb (String.eqb path) (dirs w)) eqn:E.
  - reflexivity.
  - exfalso.
    assert (existsb (String.eqb path) (dirs w) = true) as Hc.
    { apply existsb_exists. exists path. split; [exact Hin|].
      apply String.eqb_refl. }
    congruence.
Qed.

Lemma derive_eval_dir_given (s : State) :
  eval_dir (flags s) <> "" ->
  derive_eval_dir s =
  {| res := Ok tt; st := s;
     evs := @nil (@event DetectionModel EvalConfig) |}.
Proof.
  intro H. apply truthy_true in H.
  unfold derive_eval_dir. rewrite bind_get_flags, H. reflexivity.
Qed.

Lemma derive_eval_dir_derived (s : State) :
  eval_dir (flags s) = "" ->
  @derive_eval_dir DetectionModel EvalConfig s =
  {| res := Ok tt;
     st := {| flags := set_eval_dir (derived_dir s)
                         (set_eval_tag (derived_tag s) (flags s));
              world := make_dir (derived_dir s) (world s) |};
     evs := (if Py.truthy (eval_tag (flags s)) then [] else [ReadClock])
            ++ [MkdirP (derived_dir s)] |}.
Proof.
  intro H. apply truthy_false in H.
  unfold derive_eval_dir, derived_dir, derived_tag.
  rewrite bind_get_flags, H. cbn [negb].
  destruct (Py.truthy (eval_tag (flags s))) eqn:Ht; cbn [negb].
  - rewrite bind_ret, bind_get_flags, bind_mkdir_p.
    unfold modify_flags, logged; cbn [res st evs flags world app].
    destruct s as [fl w]; destruct fl; reflexivity.
  - unfold bind at 1. rewrite bind_time_strftime.
    unfold modify_flags, logged; cbn [res st evs flags world app].
    rewrite bind_get_flags, bind_mkdir_p.
    unfold logged; cbn [res st evs flags world app eval_tag checkpoint_dir
                          set_eval_tag].
    reflexivity.
Qed.

(** *** Lines 198-218: the example count, the categories, the evaluator *)

(** The scan adds one for every record and succeeds exactly on a stream that
    ends without an error. *)
Lemma sum_ones_counts (it : record_stream) (acc n : Z) :
  sum_ones it acc = inl n ->
  exists records,
    it = stream_of records /\ n = (acc + Z.of_nat (length records))%Z.
Proof.
  revert acc. induction it as [|r rest IH|e]; simpl; intros acc H.
  - exists []. simpl. split; [reflexivity|]. injection H as H. lia.
  - destruct (IH _ H) as (records & Hs & Hn).
    exists (r :: records). simpl length. split.
    + simpl. rewrite Hs. reflexivity.
    + lia.
  - discriminate.
Qed.

Lemma sum_ones_stream_of (records : list (list byte)) (acc : Z) :
  sum_ones (stream_of records) acc
  = inl (acc + Z.of_nat (length records))%Z.
Proof.
  revert acc. induction records as [|r rest IH]; intro acc.
  - simpl. f_equal. lia.
  - simpl sum_ones. rewrite IH. f_equal. simpl length. lia.
Qed.

Lemma bind_count_records {B} (path : string)
  (k : Z -> @M DetectionModel EvalConfig B) (s : State) :
  bind (count_records env path) k s =
  match sum_ones (tf_record_iterator env path) 0 with
  | inl n => logged (RecordScan path) (k n s)
  | inr e => {| res := Raise e; st := s; evs := [RecordScan path] |}
  end.
Proof.
  unfold count_records, bind at 1, bind, emit, ret, raise, logged; cbn.
  destruct (sum_ones _ _); reflexivity.
Qed.

Lemma bind_load_labelmap {B} (path : string)
  (k : StringIntLabelMap -> @M DetectionModel EvalConfig B) (s : State) :
  bind (label_map_util_load_labelmap env path) k s =
  match load_labelmap env path with
  | inl lm => logged (LoadLabelMap path) (k lm s)
  | inr e => {| res := Raise e; st := s; evs := [LoadLabelMap path] |}
  end.
Proof.
  unfold label_map_util_load_labelmap, bind at 1, bind, emit, ret, raise,
    logged; cbn.
  destruct (load_labelmap _ _); reflexivity.
Qed.

Lemma evaluator_evaluate_eq (args : EvalArgs) (s : State) :
  evaluator_evaluate env args s =
  {| res := result_of (evaluate env args); st := s;
     evs := [Evaluate args] |}.
Proof.
  unfold evaluator_evaluate, bind, emit, ret, raise, hang, result_of; cbn.
  destruct (evaluate env args); reflexivity.
Qed.

(** The block either stops before the evaluator, having scanned the record
    file and perhaps loaded the label map, or calls the evaluator once. *)
Lemma run_evaluation_cases (mx : option Z)
  (cfg : DetectionModel * EvalConfig * InputReader) (s : State) :
  let o := run_evaluation env mx cfg s in
  let ic := snd cfg in
  st o = s /\
  ((exists e, res o = Raise e) /\
   (evs o = [RecordScan (input_path ic)] \/
    evs o = [RecordScan (input_path ic); LoadLabelMap (label_map_path ic)])
   \/
   exists records label_map m,
     tf_record_iterator env (input_path ic) = stream_of records /\
     load_labelmap env (label_map_path ic) = inl label_map /\
     Py.max (map id label_map) = Some m /\
     res o = result_of
               (evaluate env
                  (evaluator_args env mx cfg s records label_map m)) /\
     evs o = [RecordScan (input_path ic); LoadLabelMap (label_map_path ic);
              Evaluate (evaluator_args env mx cfg s records label_map m)]).
Proof.
  destruct cfg as [[mc ec] ic]. cbn zeta. cbn [snd].
  unfold run_evaluation. rewrite bind_count_records.
  destruct (sum_ones (tf_record_iterator env (input_path ic)) 0) as [n|e]
    eqn:Hsum.
  2:{ cbn [res st evs]. split; [reflexivity|]. left. split; eauto. }
  rewrite bind_load_labelmap.
  destruct (load_labelmap env (label_map_path ic)) as [lm|e] eqn:Hlm.
  2:{ cbn [res st evs logged]. split; [reflexivity|]. left. split; eauto. }
  destruct (Py.max (map id lm)) as [m|] eqn:Hmax.
  2:{ rewrite bind_raise. cbn [res st evs logged].
      split; [reflexivity|]. left. split; eauto. }
  rewrite bind_ret, bind_get_flags, evaluator_evaluate_eq.
  cbn [res st evs logged].
  apply sum_ones_counts in Hsum. destruct Hsum as (records & Hit & Hn).
  rewrite Z.add_0_l in Hn. subst n.
  split; [reflexivity|].
  right. exists records, lm, m. unfold evaluator_args. cbn [fst snd].
  repeat split; assumption.
Qed.

(** *** [eval_main] as the sequence of its blocks *)

Lemma eval_main_enter (mx : option Z) (s : State) :
  eval_main env mx s =
  logged (EnterEvalMain mx (flags s))
    (bind (if Py.truthy (checkpoint_dir (flags (labelled s)))
           then ret tt
           else raise (AssertionError "`checkpoint_dir` is missing."))
          (fun _ =>
             bind (get_configs env)
                  (fun cfg =>
                     bind derive_eval_dir
                          (fun _ => run_evaluation env mx cfg)))
          (labelled s)).
Proof.
  unfold eval_main.
  rewrite bind_get_flags, bind_emit, bind_modify_flags, bind_get_flags.
  reflexivity.
Qed.

Lemma eval_main_assert_fails (mx : option Z) (s : State) :
  checkpoint_dir (flags (labelled s)) = "" ->
  eval_main env mx s =
  {| res := Raise (AssertionError "`checkpoint_dir` is missing.");
     st := labelled s;
     evs := [EnterEvalMain mx (flags s)] |}.
Proof.
  intro H. apply truthy_false in H.
  rewrite eval_main_enter, H. reflexivity.
Qed.

Lemma eval_main_configs_fail (mx : option Z) (s : State) (e : exn) :
  checkpoint_dir (flags (labelled s)) <> "" ->
  res (get_configs env (labelled s)) = Raise e ->
  eval_main env mx s =
  {| res := Raise e;
     st := labelled s;
     evs := EnterEvalMain mx (flags s) :: evs (get_configs env (labelled s)) |}.
Proof.
  intros H Hc. apply truthy_true in H.
  destruct (get_configs_reads (labelled s)) as (Hst & _ & _).
  rewrite eval_main_enter, H, bind_ret.
  unfold bind. rewrite Hc, Hst. reflexivity.
Qed.

Lemma eval_main_runs (mx : option Z) (s : State)
  (cfg : DetectionModel * EvalConfig * InputReader) :
  checkpoint_dir (flags (labelled s)) <> "" ->
  res (get_configs env (labelled s)) = Ok cfg ->
  let d := @derive_eval_dir DetectionModel EvalConfig (labelled s) in
  let r := run_evaluation env mx cfg (st d) in
  eval_main env mx s =
  {| res := res r;
     st := st d;
     evs := EnterEvalMain mx (flags s)
            :: evs (get_configs env (labelled s)) ++ evs d ++ evs r |}.
Proof.
  intros H Hc d r. apply truthy_true in H.
  destruct (get_configs_reads (labelled s)) as (Hst & _ & _).
  assert (res d = Ok tt) as Hd.
  { subst d. destruct (string_dec (eval_dir (flags (labelled s))) "") as [E|E].
    - rewrite (derive_eval_dir_derived _ E). reflexivity.
    - rewrite (derive_eval_dir_given _ E). reflexivity. }
  destruct (run_evaluation_cases mx cfg (st d)) as (Hr & _).
  rewrite eval_main_enter, H, bind_ret.
  unfold bind at 1. rewrite Hc, Hst.
  unfold bind. fold d. rewrite Hd. fold r.
  unfold logged. cbn [res st evs]. fold r in Hr. rewrite Hr. reflexivity.
Qed.

(** The three ways a run of [eval_main] goes. *)
Lemma eval_main_cases (mx : option Z) (s : State) :
  let o := eval_main env mx s in
  (checkpoint_dir (flags (labelled s)) = "" /\
   o = {| res := Raise (AssertionError "`checkpoint_dir` is missing.");
          st := labelled s;
          evs := [EnterEvalMain mx (flags s)] |})
  \/
  (checkpoint_dir (flags (labelled s)) <> "" /\
   exists e,
     res (get_configs env (labelled s)) = Raise e /\
     o = {| res := Raise e; st := labelled s;
            evs := EnterEvalMain mx (flags s)
                   :: evs (get_configs env (labelled s)) |})
  \/
  (checkpoint_dir (flags (labelled s)) <> "" /\
   exists cfg,
     res (get_configs env (labelled s)) = Ok cfg /\
     let d := @derive_eval_dir DetectionModel EvalConfig (labelled s) in
     let r := run_evaluation env mx cfg (st d) in
     o = {| res := res r; st := st d;
            evs := EnterEvalMain mx (flags s)
                   :: evs (get_configs env (labelled s)) ++ evs d ++ evs r |}).
Proof.
  cbn zeta.
  destruct (string_dec (checkpoint_dir (flags (labelled s))) "") as [E|E].
  - left. split; [exact E|]. apply eval_main_assert_fails. exact E.
  - right.
    destruct (get_configs_reads (labelled s)) as (_ & Hh & _).
    destruct (res (get_configs env (labelled s))) as [cfg|e|] eqn:Hc.
    + right. split; [exact E|]. exists cfg. split; [reflexivity|].
      apply eval_main_runs; assumption.
    + left. split; [exact E|]. exists e. split; [reflexivity|].
      apply eval_main_configs_fail; assumption.
    + congruence.
Qed.

(** *** What the log of a run of [eval_main] shows *)

Lemma run_evaluation_calls (mx : option Z)
  (cfg : DetectionModel * EvalConfig * InputReader) (s : State) :
  calls (evs (run_evaluation env mx cfg s)) = [] /\
  steps (evs (run_evaluation env mx cfg s)) = [].
Proof.
  destruct (run_evaluation_cases mx cfg s)
    as (_ & [(_ & [H|H]) | (rs & lm & m & _ & _ & _ & _ & H)]);
    rewrite H; split; reflexivity.
Qed.

Lemma derive_eval_dir_calls (s : State) :
  let o := @derive_eval_dir DetectionModel EvalConfig s in
  calls (evs o) = [] /\ steps (evs o) = [] /\ evaluations (evs o) = [].
Proof.
  cbn zeta.
  destruct (string_dec (eval_dir (flags s)) "") as [E|E].
  - rewrite (derive_eval_dir_derived _ E). cbn [evs].
    destruct (Py.truthy (eval_tag (flags s))); repeat split; reflexivity.
  - rewrite (derive_eval_dir_given _ E). repeat split; reflexivity.
Qed.

(** A run logs its entry once and resets no graph. *)
Lemma eval_main_steps (mx : option Z) (s : State) :
  steps (evs (eval_main env mx s)) =
  [Run (eval_label (flags s)) (pipeline_config_path (flags s))
       (checkpoint_dir (flags s)) mx].
Proof.
  destruct (get_configs_reads (labelled s)) as (_ & _ & paths & Hg).
  destruct (eval_main_cases mx s)
    as [(_ & H) | [(_ & e & _ & H) | (_ & cfg & _ & H)]];
    cbn zeta in H; rewrite H; cbn [evs].
  - reflexivity.
  - rewrite Hg.
    change (steps (?a :: ?b :: ?l)) with (step_of a ++ step_of b ++ steps l).
    rewrite steps_opens. reflexivity.
  - rewrite Hg.
    change (steps (?a :: (?b :: ?l) ++ ?l'))
      with (step_of a ++ step_of b ++ steps (l ++ l')).
    rewrite !steps_app, steps_opens.
    destruct (derive_eval_dir_calls (labelled s)) as (_ & Hd & _).
    rewrite Hd.
    destruct (run_evaluation_calls mx cfg
                (st (@derive_eval_dir DetectionModel EvalConfig (labelled s))))
      as (_ & Hr).
    rewrite Hr. reflexivity.
Qed.

(** A run calls the reader that the flags select, once, unless the check of
    [checkpoint_dir] stops it before. *)
Lemma eval_main_calls (mx : option Z) (s : State) :
  calls (evs (eval_main env mx s)) =
  if Py.truthy (checkpoint_dir (flags (labelled s)))
  then [spec_selected_reader (flags (labelled s))]
  else [].
Proof.
  destruct (get_configs_reads (labelled s)) as (_ & _ & paths & Hg).
  destruct (eval_main_cases mx s)
    as [(Hd & H) | [(Hd & e & _ & H) | (Hd & cfg & _ & H)]];
    cbn zeta in H; rewrite H; cbn [evs].
  - apply truthy_false in Hd. rewrite Hd. reflexivity.
  - apply truthy_true in Hd. rewrite Hd, Hg.
    cbn [calls]. rewrite calls_opens. reflexivity.
  - apply truthy_true in Hd. rewrite Hd, Hg.
    cbn [calls app]. rewrite !calls_app, calls_opens.
    destruct (derive_eval_dir_calls (labelled s)) as (Hc & _ & _).
    rewrite Hc.
    destruct (run_evaluation_calls mx cfg
                (st (@derive_eval_dir DetectionModel EvalConfig (labelled s))))
      as (Hr & _).
    rewrite Hr. reflexivity.
Qed.

(** Every event of the evaluation block is the scan, the load, or the call
    of the evaluator with the arguments built from what was read. *)
Lemma run_evaluation_event (mx : option Z)
  (cfg : DetectionModel * EvalConfig * InputReader) (s : State) (e : event) :
  In e (evs (run_evaluation env mx cfg s)) ->
  e = RecordScan (input_path (snd cfg)) \/
  e = LoadLabelMap (label_map_path (snd cfg)) \/
  exists records label_map m,
    tf_record_iterator env (input_path (snd cfg)) = stream_of records /\
    load_labelmap env (label_map_path (snd cfg)) = inl label_map /\
    Py.max (map id label_map) = Some m /\
    e = Evaluate (evaluator_args env mx cfg s records label_map m).
Proof.
  destruct (run_evaluation_cases mx cfg s)
    as (_ & [(_ & [H|H]) | (rs & lm & m & Hr & Hl & Hm & _ & H)]);
    rewrite H; cbn [In]; intros Hin.
  - destruct Hin as [<-|[]]. left. reflexivity.
  - destruct Hin as [<-|[<-|[]]]; [left|right; left]; reflexivity.
  - destruct Hin as [<-|[<-|[<-|[]]]].
    + left. reflexivity.
    + right. left. reflexivity.
    + right. right. exists rs, lm, m. repeat split; assumption.
Qed.

(** Where an event of a run of [eval_main] comes from. *)
Lemma eval_main_event (mx : option Z) (s : State) (e : event) :
  In e (evs (eval_main env mx s)) ->
  e = EnterEvalMain mx (flags s) \/
  (exists r, e = Call r) \/
  (exists path, e = GFileOpen path) \/
  (checkpoint_dir (flags (labelled s)) <> "" /\
   exists cfg,
     res (get_configs env (labelled s)) = Ok cfg /\
     let d := @derive_eval_dir DetectionModel EvalConfig (labelled s) in
     (In e (evs d) \/ In e (evs (run_evaluation env mx cfg (st d))))).
Proof.
  destruct (get_configs_reads (labelled s)) as (_ & _ & paths & Hg).
  assert (forall x, In x (evs (get_configs env (labelled s))) ->
                    (exists r, x = Call r) \/ (exists p, x = GFileOpen p))
    as Hcfg.
  { intros x Hx. rewrite Hg in Hx. destruct Hx as [<-|Hx].
    - left. eauto.
    - right. apply in_map_iff in Hx. destruct Hx as (q & <- & _). eauto. }
  destruct (eval_main_cases mx s)
    as [(_ & H) | [(_ & x & _ & H) | (Hd & cfg & Hc & H)]];
    cbn zeta in H; rewrite H; cbn [evs In]; intros Hin.
  - destruct Hin as [<-|[]]. left. reflexivity.
  - destruct Hin as [<-|Hin]; [left; reflexivity|].
    right. destruct (Hcfg _ Hin); auto.
  - destruct Hin as [<-|Hin]; [left; reflexivity|].
    right. apply in_app_or in Hin. destruct Hin as [Hin|Hin].
    + destruct (Hcfg _ Hin); auto.
    + right. right. split; [exact Hd|]. exists cfg.
      split; [exact Hc|]. cbn zeta. apply in_app_or in Hin. exact Hin.
Qed.

(** A call of the evaluator in a run of [eval_main]: the configuration was
    read, the output directory settled, the record file scanned to its end
    and the label map loaded, and the arguments are built from these. *)
Lemma eval_main_evaluates (mx : option Z) (s : State) (a : EvalArgs) :
  In (Evaluate a) (evs (eval_main env mx s)) ->
  exists cfg records label_map m,
    checkpoint_dir (flags (labelled s)) <> "" /\
    res (get_configs env (labelled s)) = Ok cfg /\
    tf_record_iterator env (input_path (snd cfg)) = stream_of records /\
    load_labelmap env (label_map_path (snd cfg)) = inl label_map /\
    Py.max (map id label_map) = Some m /\
    a = evaluator_args env mx cfg
          (st (@derive_eval_dir DetectionModel EvalConfig (labelled s)))
          records label_map m.
Proof.
  intro Hin. apply eval_main_event in Hin.
  destruct Hin as [H|[(r & H)|[(q & H)|(Hd & cfg & Hc & H)]]];
    try discriminate H.
  cbn zeta in H. destruct H as [H|H].
  - exfalso.
    destruct (derive_eval_dir_calls (labelled s)) as (_ & _ & He).
    revert H He.
    generalize (evs (@derive_eval_dir DetectionModel EvalConfig (labelled s))).
    intros l H He. induction l as [|x l IH]; [exact H|].
    destruct H as [->|H]; [discriminate He|].
    apply IH; [exact H|]. destruct x; cbn in He; congruence.
  - apply run_evaluation_event in H.
    destruct H as [H|[H|(rs & lm & m & Hr & Hl & Hm & H)]];
      try discriminate H.
    injection H as ->. exists cfg, rs, lm, m. repeat split; assumption.
Qed.

(** ** The claims about [eval_main] *)

(** C1 (as amended).  Which configuration reader a run of [eval_main] calls
    is decided by the flags as they are after the label has been applied.
    When [checkpoint_dir] is empty then, the assertion stops the run and no
    reader is called.  Otherwise exactly one reader is called: the pipeline
    file reader if [pipeline_config_path] is non-empty, whatever the other
    path flags are; otherwise the reader of the three files if
    [eval_config_path] is non-empty; otherwise the reader of the checkpoint
    directory. *)
Theorem eval_main_selects_one_reader (mx : option Z) (s : State) :
  let fl := flags (labelled s) in
  let called := calls (evs (eval_main env mx s)) in
  (checkpoint_dir fl = "" -> called = []) /\
  (checkpoint_dir fl <> "" ->
   (pipeline_config_path fl <> "" -> called = [FromPipelineFile]) /\
   (pipeline_config_path fl = "" -> eval_config_path fl <> "" ->
    called = [FromMultipleFiles]) /\
   (pipeline_config_path fl = "" -> eval_config_path fl = "" ->
    called = [FromCheckpointDir])).
Proof.
  cbn zeta. rewrite eval_main_calls. unfold spec_selected_reader.
  split.
  - intro H. apply truthy_false in H. rewrite H. reflexivity.
  - intro H. apply truthy_true in H. rewrite H.
    split; [|split].
    + intro Hp. apply truthy_true in Hp. rewrite Hp. reflexivity.
    + intros Hp He. apply truthy_false in Hp. apply truthy_true in He.
      rewrite Hp, He. reflexivity.
    + intros Hp He. apply truthy_false in Hp. apply truthy_false in He.
      rewrite Hp, He. reflexivity.
Qed.

(** C3.  With the [checkpoint_dir] and [eval_label] flags both empty,
    [eval_main] ends with the assertion failure, and it has done nothing by
    then: the flags and the directories are as before, and the log holds the
    entry into [eval_main] only, so no file was opened, no directory created,
    no record file scanned and no label map loaded. *)
Theorem eval_main_without_checkpoint_dir (mx : option Z) (s : State) :
  checkpoint_dir (flags s) = "" ->
  eval_label (flags s) = "" ->
  let o := eval_main env mx s in
  res o = Raise (AssertionError "`checkpoint_dir` is missing.") /\
  st o = s /\
  evs o = [EnterEvalMain mx (flags s)] /\
  (forall e, In e (evs o) -> is_file_io e = false).
Proof.
  intros Hd Hl. cbn zeta.
  rewrite eval_main_assert_fails.
  - rewrite (labelled_no_label _ Hl). cbn [res st evs].
    repeat split.
    intros e [He|[]]. subst e. reflexivity.
  - rewrite (labelled_no_label _ Hl). exact Hd.
Qed.

Ltac flag_simpl :=
  cbn [eval_training_data checkpoint_dir eval_dir pipeline_config_path
       eval_config_path input_config_path model_config_path eval_tag
       gpu_fraction eval_label set_checkpoint_dir set_eval_dir
       set_pipeline_config_path set_eval_tag set_eval_label].

(** The flags after a run are the flags with the label applied, unless the
    run got to derive the output directory. *)
Lemma eval_main_flags (mx : option Z) (s : State) :
  eval_dir (flags (labelled s)) <> "" ->
  st (eval_main env mx s) = labelled s.
Proof.
  intro H.
  destruct (eval_main_cases mx s)
    as [(_ & E) | [(_ & e & _ & E) | (_ & cfg & _ & E)]];
    cbn zeta in E; rewrite E; cbn [st]; try reflexivity.
  rewrite (derive_eval_dir_given _ H). reflexivity.
Qed.

(** C9.  A non-empty [eval_label] at the entry of [eval_main] overwrites the
    [eval_dir] and [eval_tag] flags whatever they held, while
    [pipeline_config_path] and [checkpoint_dir] take their value from the
    label only if they were empty; no other flag changes, and this is how the
    flags stand when [eval_main] is left. *)
Theorem eval_label_overrides (mx : option Z) (s : State) :
  eval_label (flags s) <> "" ->
  let fl := flags s in
  let fl' := flags (st (eval_main env mx s)) in
  eval_dir fl' = ("../checkpoints/eval/" ++ eval_label fl)%string /\
  eval_tag fl' = eval_label fl /\
  pipeline_config_path fl' =
    (if String.eqb (pipeline_config_path fl) ""
     then ("../configs/test/" ++ eval_label fl ++ ".config")%string
     else pipeline_config_path fl) /\
  checkpoint_dir fl' =
    (if String.eqb (checkpoint_dir fl) ""
     then ("../checkpoints/train/" ++ eval_label fl)%string
     else checkpoint_dir fl) /\
  eval_label fl' = eval_label fl /\
  eval_training_data fl' = eval_training_data fl /\
  eval_config_path fl' = eval_config_path fl /\
  input_config_path fl' = input_config_path fl /\
  model_config_path fl' = model_config_path fl /\
  gpu_fraction fl' = gpu_fraction fl.
Proof.
  intro Hl. cbn zeta.
  assert (Py.truthy (eval_label (flags s)) = true) as Ht
    by (apply truthy_true; exact Hl).
  assert (eval_dir (flags (labelled s)) <> "") as Hdir.
  { unfold labelled, apply_eval_label. cbn [flags]. rewrite Ht.
    flag_simpl. discriminate. }
  rewrite (eval_main_flags _ _ Hdir).
  unfold labelled, apply_eval_label. cbn [flags]. rewrite Ht.
  destruct (flags s); flag_simpl.
  destruct (String.eqb pipeline_config_path0 ""); flag_simpl;
    destruct (String.eqb checkpoint_dir0 ""); flag_simpl;
    repeat (split; [reflexivity|]); reflexivity.
Qed.

(** The events of the derivation block when [eval_dir] is empty. *)
Lemma derive_eval_dir_event (s : State) (e : event) :
  eval_dir (flags s) = "" ->
  In e (evs (@derive_eval_dir DetectionModel EvalConfig s)) ->
  (e = ReadClock /\ eval_tag (flags s) = "") \/ e = MkdirP (derived_dir s).
Proof.
  intros H Hin. rewrite (derive_eval_dir_derived _ H) in Hin. cbn [evs] in Hin.
  destruct (Py.truthy (eval_tag (flags s))) eqn:Ht.
  - destruct Hin as [<-|[]]. right. reflexivity.
  - apply truthy_false in Ht.
    destruct Hin as [<-|[<-|[]]]; [left; split; auto | right; reflexivity].
Qed.

(** C4.  Take a run of [eval_main] with [eval_label] and [eval_dir] empty and
    a non-empty [eval_tag] [t].  The only directory the run can create and
    the only output directory the evaluator can be given is
    [checkpoint_dir ++ "_eval_" ++ t], and the clock is never read.  When the
    run gets past the assertion and the reading of the configuration, the
    directory is created and [eval_dir] is set to it, the tag stays [t], and
    the run goes on to scan the record file: this holds whether or not the
    directory existed before, and if it did the directories are unchanged. *)
Theorem eval_dir_from_tag (mx : option Z) (s : State) (t : string) :
  eval_label (flags s) = "" ->
  eval_dir (flags s) = "" ->
  eval_tag (flags s) = t ->
  t <> "" ->
  let o := eval_main env mx s in
  let target := (checkpoint_dir (flags s) ++ "_eval_" ++ t)%string in
  (forall e, In e (evs o) -> is_clock e = false) /\
  (forall path, In (MkdirP path) (evs o) -> path = target) /\
  (forall a, In (Evaluate a) (evs o) -> arg_eval_dir a = target) /\
  (forall cfg,
     checkpoint_dir (flags s) <> "" ->
     res (get_configs env s) = Ok cfg ->
     In (MkdirP target) (evs o) /\
     eval_dir (flags (st o)) = target /\
     eval_tag (flags (st o)) = t /\
     In target (dirs (world (st o))) /\
     (In target (dirs (world s)) -> world (st o) = world s) /\
     In (RecordScan (input_path (snd cfg))) (evs o)).
Proof.
  intros Hl Hd Ht Hne. cbn zeta.
  assert (labelled s = s) as HL by (apply labelled_no_label; exact Hl).
  assert (derived_tag s = t) as Htag.
  { unfold derived_tag. rewrite Ht.
    apply truthy_true in Hne. rewrite Hne. reflexivity. }
  assert (derived_dir s = (checkpoint_dir (flags s) ++ "_eval_" ++ t)%string)
    as Hdir.
  { unfold derived_dir. rewrite Htag. reflexivity. }
  pose proof (derive_eval_dir_derived s Hd) as HD.
  rewrite Hdir, Htag in HD.
  split; [|split; [|split]].
  - intros e Hin. apply eval_main_event in Hin.
    destruct Hin as [ -> | [ (r & ->) | [ (q & ->) | (_ & cfg & _ & H) ] ] ];
      try reflexivity.
    cbn zeta in H. rewrite HL in H. destruct H as [H|H].
    + apply (derive_eval_dir_event _ _ Hd) in H.
      destruct H as [ (_ & H) | -> ]; [|reflexivity].
      congruence.
    + apply run_evaluation_event in H.
      destruct H as [ -> | [ -> | (rs & lm & m & _ & _ & _ & ->) ] ];
        reflexivity.
  - intros path Hin. apply eval_main_event in Hin.
    destruct Hin as [H|[(r & H)|[(q & H)|(_ & cfg & _ & H)]]];
      try discriminate H.
    cbn zeta in H. rewrite HL in H. destruct H as [H|H].
    + apply (derive_eval_dir_event _ _ Hd) in H.
      destruct H as [(H & _)|H]; [discriminate H|].
      injection H as ->. exact Hdir.
    + apply run_evaluation_event in H.
      destruct H as [H|[H|(rs & lm & m & _ & _ & _ & H)]]; discriminate H.
  - intros a Hin. apply eval_main_evaluates in Hin.
    destruct Hin as (cfg & rs & lm & m & _ & _ & _ & _ & _ & ->).
    unfold evaluator_args. cbn [arg_eval_dir]. rewrite HL, HD.
    reflexivity.
  - intros cfg Hc Hcfg.
    assert (checkpoint_dir (flags (labelled s)) <> "") as Hc'
      by (rewrite HL; exact Hc).
    assert (res (get_configs env (labelled s)) = Ok cfg) as Hcfg'
      by (rewrite HL; exact Hcfg).
    pose proof (eval_main_runs mx s cfg Hc' Hcfg') as E. cbn zeta in E.
    rewrite E. cbn [st evs]. rewrite HL, HD. cbn [st evs flags world].
    apply truthy_true in Hne. rewrite Ht, Hne.
    repeat split.
    + right. apply in_or_app. right. apply in_or_app. left.
      left. reflexivity.
    + apply make_dir_in.
    + apply make_dir_existing.
    + right. apply in_or_app. right. apply in_or_app. right.
      destruct (run_evaluation_cases mx cfg
                  {| flags :=
                       set_eval_dir
                         (checkpoint_dir (flags s) ++ "_eval_" ++ t)
                         (set_eval_tag t (flags s));
                     world :=
                       make_dir (checkpoint_dir (flags s) ++ "_eval_" ++ t)
                         (world s) |})
        as (_ & [(_ & [H|H]) | (rs & lm & m & _ & _ & _ & _ & H)]);
        rewrite H; left; reflexivity.
Qed.

(** With a label the output directory comes from the label: the clock is
    not read and no directory is created. *)
Lemma eval_main_labelled_event (mx : option Z) (s : State) (e : event) :
  eval_label (flags s) <> "" ->
  In e (evs (eval_main env mx s)) ->
  is_clock e = false /\ (forall path, e <> MkdirP path).
Proof.
  intros Hl Hin.
  assert (eval_dir (flags (labelled s)) <> "") as Hdir.
  { unfold labelled, apply_eval_label. cbn [flags].
    apply truthy_true in Hl. rewrite Hl. flag_simpl. discriminate. }
  apply eval_main_event in Hin.
  destruct Hin as [ -> | [ (r & ->) | [ (q & ->) | (_ & cfg & _ & H) ] ] ];
    try (split; [reflexivity | discriminate]).
  cbn zeta in H. rewrite (derive_eval_dir_given _ Hdir) in H.
  cbn [evs st] in H. destruct H as [[]|H].
  apply run_evaluation_event in H.
  destruct H as [ -> | [ -> | (rs & lm & m & _ & _ & _ & ->) ] ];
    (split; [reflexivity | discriminate]).
Qed.

(** C5 (as amended).  Take a run of [eval_main] with the [eval_dir] and
    [eval_tag] flags empty.  If [eval_label] is empty too, the only directory
    the run can create and the only output directory it can give to the
    evaluator is [checkpoint_dir ++ "_eval_" ++ tag], where [tag] is the
    local time as year, month, day, a dash, hour, minute, second; when the
    run gets past the assertion and the reading of the configuration, it
    reads the clock, sets [eval_tag] to that tag and [eval_dir] to that
    directory, and the directory exists afterwards.  If [eval_label] is not
    empty, the clock is not read and no directory is created. *)
Theorem eval_dir_from_clock (mx : option Z) (s : State) :
  eval_dir (flags s) = "" ->
  eval_tag (flags s) = "" ->
  let o := eval_main env mx s in
  let t := now (world s) in
  let tag :=
    (Py.dec (Py.tm_year t) ++ Py.dec2 (Py.tm_mon t) ++ Py.dec2 (Py.tm_mday t)
     ++ "-" ++
     Py.dec2 (Py.tm_hour t) ++ Py.dec2 (Py.tm_min t) ++ Py.dec2 (Py.tm_sec t))
    %string in
  let target := (checkpoint_dir (flags s) ++ "_eval_" ++ tag)%string in
  (eval_label (flags s) = "" ->
   (forall path, In (MkdirP path) (evs o) -> path = target) /\
   (forall a, In (Evaluate a) (evs o) -> arg_eval_dir a = target) /\
   (forall cfg,
      checkpoint_dir (flags s) <> "" ->
      res (get_configs env s) = Ok cfg ->
      In ReadClock (evs o) /\
      In (MkdirP target) (evs o) /\
      eval_tag (flags (st o)) = tag /\
      eval_dir (flags (st o)) = target /\
      In target (dirs (world (st o))))) /\
  (eval_label (flags s) <> "" ->
   forall e, In e (evs o) ->
             is_clock e = false /\ (forall path, e <> MkdirP path)).
Proof.
  intros Hd Ht. cbn zeta. split.
  2:{ intros Hl e Hin. exact (eval_main_labelled_event mx s e Hl Hin). }
  intro Hl.
  assert (labelled s = s) as HL by (apply labelled_no_label; exact Hl).
  assert (derived_tag s = Py.strftime "%Y%m%d-%H%M%S" (now (world s)))
    as Htag.
  { unfold derived_tag. rewrite Ht. reflexivity. }
  pose proof (derive_eval_dir_derived s Hd) as HD.
  unfold derived_dir in HD. rewrite Htag, Ht, strftime_run_tag in HD.
  change (Py.truthy "") with false in HD.
  split; [|split].
  - intros path Hin. apply eval_main_event in Hin.
    destruct Hin as [H|[(r & H)|[(q & H)|(_ & cfg & _ & H)]]];
      try discriminate H.
    cbn zeta in H. rewrite HL in H. destruct H as [H|H].
    + rewrite HD in H. cbn [evs app] in H.
      destruct H as [H|[H|[]]]; [discriminate H|].
      injection H as <-. reflexivity.
    + apply run_evaluation_event in H.
      destruct H as [H|[H|(rs & lm & m & _ & _ & _ & H)]]; discriminate H.
  - intros a Hin. apply eval_main_evaluates in Hin.
    destruct Hin as (cfg & rs & lm & m & _ & _ & _ & _ & _ & ->).
    unfold evaluator_args. cbn [arg_eval_dir]. rewrite HL, HD.
    reflexivity.
  - intros cfg Hc Hcfg.
    assert (checkpoint_dir (flags (labelled s)) <> "") as Hc'
      by (rewrite HL; exact Hc).
    assert (res (get_configs env (labelled s)) = Ok cfg) as Hcfg'
      by (rewrite HL; exact Hcfg).
    pose proof (eval_main_runs mx s cfg Hc' Hcfg') as E. cbn zeta in E.
    rewrite E. cbn [st evs]. rewrite HL, HD. cbn [st evs flags world].
    repeat split.
    + right. apply in_or_app. right. left. reflexivity.
    + right. apply in_or_app. right. right. left. reflexivity.
    + apply make_dir_in.
Qed.


(** *** The label map and the categories *)

Lemma fold_left_max (rest : list Z) (x : Z) :
  let m := fold_left Z.max rest x in
  (m = x \/ In m rest) /\ (x <= m)%Z /\ (forall y, In y rest -> (y <= m)%Z).
Proof.
  revert x. induction rest as [|y rest IH]; intro x; cbn zeta.
  - simpl. repeat split; auto; try lia.
  - simpl fold_left. destruct (IH (Z.max x y)) as (Hin & Hle & Hall).
    cbn zeta in Hin, Hle, Hall. repeat split.
    + destruct Hin as [Hin|Hin].
      * rewrite Hin. destruct (Z.max_spec x y) as [(_ & E)|(_ & E)];
          rewrite E; [right; left; reflexivity | left; reflexivity].
      * right. right. exact Hin.
    + lia.
    + intros z [<-|Hz]; [lia | apply Hall; exact Hz].
Qed.

(** [max] answers the largest element, and fails on the empty list only. *)
Lemma max_spec (xs : list Z) (m : Z) :
  Py.max xs = Some m ->
  xs <> [] /\ In m xs /\ (forall x, In x xs -> (x <= m)%Z).
Proof.
  destruct xs as [|x rest]; simpl; intro H; [discriminate|].
  injection H as <-.
  destruct (fold_left_max rest x) as (Hin & Hle & Hall).
  cbn zeta in Hin, Hle, Hall.
  split; [discriminate|]. split.
  - destruct Hin as [Hin|Hin]; [left; symmetry; exact Hin | right; exact Hin].
  - intros y [<-|Hy]; [exact Hle | apply Hall; exact Hy].
Qed.






(** C8.  Whenever [eval_main] calls the evaluator, the record file of the
    input configuration was scanned to its end without an error, and the
    example count is the number of records the file holds, whatever the
    records are; and the scan of a file that holds a list of records always
    succeeds with the length of the list. *)
Theorem num_examples_counts_records (mx : option Z) (s : State) :
  (forall a,
     In (Evaluate a) (evs (eval_main env mx s)) ->
     exists records,
       tf_record_iterator env (input_path (create_input_dict_fn a))
         = stream_of records /\
       num_examples a = Z.of_nat (length records)) /\
  (forall records,
     sum_ones (stream_of records) 0 = inl (Z.of_nat (length records))).
Proof.
  split.
  - intros a Hin. apply eval_main_evaluates in Hin.
    destruct Hin as (cfg & rs & lm & m & _ & _ & Hr & _ & _ & ->).
    exists rs. unfold evaluator_args. cbn [create_input_dict_fn num_examples].
    split; [exact Hr | reflexivity].
  - intro records. rewrite sum_ones_stream_of. reflexivity.
Qed.

(** ** The driver loop of [main] *)

Lemma bind_ok {A B} (m : @M DetectionModel EvalConfig A) (k : A -> M B)
  (s : State) (a : A) :
  res (m s) = Ok a ->
  bind m k s =
  {| res := res (k a (st (m s))); st := st (k a (st (m s)));
     evs := evs (m s) ++ evs (k a (st (m s))) |}.
Proof. intro H. unfold bind. rewrite H. reflexivity. Qed.

Lemma bind_stops {A B} (m : @M DetectionModel EvalConfig A) (k : A -> M B)
  (s : State) :
  (forall a, res (m s) <> Ok a) ->
  st (bind m k s) = st (m s) /\
  evs (bind m k s) = evs (m s) /\
  (forall b, res (bind m k s) <> Ok b) /\
  (forall e, res (m s) = Raise e -> res (bind m k s) = Raise e).
Proof.
  intro H. unfold bind.
  destruct (res (m s)) as [a|e|] eqn:E.
  - exfalso. exact (H a eq_refl).
  - cbn. repeat split; try discriminate.
    intros e0 He. injection He as ->. reflexivity.
  - cbn. repeat split; discriminate.
Qed.

(** Lines 227-231: the flags are reset, then the graph, then [eval_main]
    runs with a bound of one evaluation. *)
Lemma run_label_eq (label : string) (s : State) :
  run_label env label s =
  logged ResetDefaultGraph (eval_main env (Some 1%Z) (reset_for label s)).
Proof.
  unfold run_label, tf_reset_default_graph.
  rewrite !bind_modify_flags, bind_emit. reflexivity.
Qed.

Lemma run_label_steps (label : string) (s : State) :
  steps (evs (run_label env label s)) = pass_steps [label].
Proof.
  rewrite run_label_eq. unfold logged. cbn [evs].
  change (steps (?e :: ?l)) with (step_of e ++ steps l).
  rewrite eval_main_steps. reflexivity.
Qed.

Lemma pass_steps_app (l1 l2 : list string) :
  pass_steps (l1 ++ l2) = pass_steps l1 ++ pass_steps l2.
Proof. unfold pass_steps. apply flat_map_app. Qed.

(** One pass over the labels: the labels are taken in order, each one at most
    once, and the pass stops at the first run that does not return. *)
Lemma for_each_run_label (labels : list string) (s : State) :
  let o := for_each labels (run_label env) s in
  exists k,
    k <= length labels /\
    steps (evs o) = pass_steps (firstn k labels) /\
    (labels <> [] -> 1 <= k) /\
    (res o = Ok tt -> k = length labels) /\
    (k < length labels -> res o <> Ok tt).
Proof.
  revert s. induction labels as [|l rest IH]; intro s; cbn zeta.
  - exists 0. cbn. repeat split; auto; try lia. congruence.
  - cbn [for_each].
    destruct (res (run_label env l s)) as [[]|e|] eqn:E.
    + rewrite (bind_ok _ _ _ _ E). cbn [res evs].
      destruct (IH (st (run_label env l s))) as (k & Hk & Hs & _ & Hr & Hn).
      cbn zeta in Hs, Hr, Hn.
      exists (S k). cbn [length firstn].
      rewrite steps_app, run_label_steps, Hs.
      change (l :: firstn k rest) with ([l] ++ firstn k rest).
      rewrite pass_steps_app.
      repeat split; try lia.
      * intro H. rewrite (Hr H). reflexivity.
      * intro H. apply Hn. lia.
    + destruct (bind_stops (run_label env l) (fun _ => for_each rest (run_label env)) s)
        as (_ & He & Hno & _).
      { intros a. rewrite E. discriminate. }
      exists 1. cbn [length firstn]. rewrite He, run_label_steps.
      repeat split; try lia.
      * intro H. exfalso. exact (Hno tt H).
      * intros _. apply Hno.
    + destruct (bind_stops (run_label env l) (fun _ => for_each rest (run_label env)) s)
        as (_ & He & Hno & _).
      { intros a. rewrite E. discriminate. }
      exists 1. cbn [length firstn]. rewrite He, run_label_steps.
      repeat split; try lia.
      * intro H. exfalso. exact (Hno tt H).
      * intros _. apply Hno.
Qed.

(** With more than one label, [main] is one pass over the labels, whatever
    the (positive) bound on the rounds of [while True] is. *)
Lemma main_multi_run (fuel : nat) (s : State) :
  1 < length (Py.split "," (eval_label (flags s))) ->
  let o := for_each (Py.split "," (eval_label (flags s))) (run_label env) s in
  main env (S fuel) s =
  {| res := pass_result (res o); st := st o; evs := evs o |}.
Proof.
  intro H. cbn zeta. unfold main. rewrite bind_get_flags.
  assert (Py.truthy (eval_label (flags s)) = true) as Ht.
  { apply truthy_true. intro E. rewrite E in H. cbn in H. lia. }
  assert (Nat.eqb (length (Py.split "," (eval_label (flags s)))) 1 = false)
    as Hn by (apply Nat.eqb_neq; lia).
  rewrite Ht, Hn. cbn [negb orb while_true].
  set (pass := for_each (Py.split "," (eval_label (flags s))) (run_label env)).
  destruct (res (pass s)) as [[]|e|] eqn:E.
  - rewrite (bind_ok _ _ _ Break).
    + rewrite (bind_ok _ _ _ _ E). unfold ret. cbn [res st evs].
      rewrite !app_nil_r. reflexivity.
    + rewrite (bind_ok _ _ _ _ E). reflexivity.
  - unfold bind. rewrite E. reflexivity.
  - unfold bind. rewrite E. reflexivity.
Qed.

(** A loop over [pre ++ rest] whose part over [pre] returns goes on with
    [rest] from the state reached. *)
Lemma for_each_app {A} (body : A -> @M DetectionModel EvalConfig unit)
  (pre rest : list A) (s : State) :
  res (for_each pre body s) = Ok tt ->
  for_each (pre ++ rest) body s =
  {| res := res (for_each rest body (st (for_each pre body s)));
     st := st (for_each rest body (st (for_each pre body s)));
     evs := evs (for_each pre body s)
            ++ evs (for_each rest body (st (for_each pre body s))) |}.
Proof.
  revert s. induction pre as [|x pre IH]; intro s.
  - intros _. cbn [for_each app]. unfold ret. cbn [st evs app].
    symmetry. apply out_eta.
  - cbn [for_each app]. intro H.
    destruct (res (body x s)) as [[]|e|] eqn:E.
    + rewrite (bind_ok _ (fun _ => for_each pre body) _ _ E) in H.
      cbn [res] in H.
      rewrite (bind_ok _ (fun _ => for_each pre body) _ _ E).
      rewrite (bind_ok _ (fun _ => for_each (pre ++ rest) body) _ _ E).
      cbn [res st evs].
      rewrite (IH _ H). cbn [res st evs]. rewrite app_assoc. reflexivity.
    + exfalso.
      destruct (bind_stops (body x) (fun _ => for_each pre body) s)
        as (_ & _ & Hno & _).
      { intro a. rewrite E. discriminate. }
      exact (Hno tt H).
    + exfalso.
      destruct (bind_stops (body x) (fun _ => for_each pre body) s)
        as (_ & _ & Hno & _).
      { intro a. rewrite E. discriminate. }
      exact (Hno tt H).
Qed.

(** A computation that does not return a value ends the sequence it is
    in: what follows is not run. *)
Lemma bind_fails {A B} (m : @M DetectionModel EvalConfig A) (k : A -> M B)
  (s : State) :
  (forall a, res (m s) <> Ok a) ->
  bind m k s =
  {| res := match res (m s) with
            | Ok _ => Hang
            | Raise e => Raise e
            | Hang => Hang
            end;
     st := st (m s); evs := evs (m s) |}.
Proof.
  intro H. unfold bind. destruct (res (m s)) as [a|e|] eqn:E.
  - exfalso. exact (H a eq_refl).
  - reflexivity.
  - reflexivity.
Qed.

(** A loop ends with the first round that does not return. *)
Lemma for_each_fails {A} (body : A -> @M DetectionModel EvalConfig unit)
  (pre : list A) (x : A) (post : list A) (s : State) :
  res (for_each pre body s) = Ok tt ->
  (forall u, res (body x (st (for_each pre body s))) <> Ok u) ->
  for_each (pre ++ x :: post) body s =
  {| res := match res (body x (st (for_each pre body s))) with
            | Ok _ => Hang
            | Raise e => Raise e
            | Hang => Hang
            end;
     st := st (body x (st (for_each pre body s)));
     evs := evs (for_each pre body s)
            ++ evs (body x (st (for_each pre body s))) |}.
Proof.
  intros Hpre Hfail.
  rewrite (for_each_app body pre (x :: post) s Hpre).
  cbn [for_each].
  rewrite (bind_fails (body x) (fun _ => for_each post body) _ Hfail).
  reflexivity.
Qed.

(** C2 (as amended).  When the [eval_label] flag splits into more than one
    label, [main] makes one pass over the labels and is done, whatever the
    bound on the rounds of [while True]: the loop never starts a second round.
    In the pass the labels are taken in list order, each at most once, and
    for each label that is taken the graph is reset and [eval_main] is
    entered with that label, with empty [pipeline_config_path] and
    [checkpoint_dir] flags, and with a bound of one evaluation.  The first
    run that raises or does not return ends the pass and [main] with it:
    [main] raises what the run raised (or does not return), in the state the
    run left, and the log ends with the log of that run, so that no later
    label is taken.  If every run returns, [main] returns and every label
    was taken exactly once. *)
Theorem main_single_pass (fuel : nat) (s : State) :
  let labels := Py.split "," (eval_label (flags s)) in
  1 < length labels ->
  let o := main env (S fuel) s in
  o = main env 1 s /\
  res o <> Ok None /\
  (exists k,
     1 <= k <= length labels /\
     steps (evs o) = pass_steps (firstn k labels) /\
     (forall r, res o = Ok r -> k = length labels) /\
     (k < length labels -> forall r, res o <> Ok r)) /\
  (forall pre l post,
     labels = pre ++ l :: post ->
     let before := for_each pre (run_label env) s in
     let run := run_label env l (st before) in
     res before = Ok tt ->
     (forall u, res run <> Ok u) ->
     res o = pass_result (res run) /\
     (forall r, res o <> Ok r) /\
     st o = st run /\
     evs o = evs before ++ evs run /\
     steps (evs o) = pass_steps (pre ++ [l])) /\
  (res (for_each labels (run_label env) s) = Ok tt ->
   res o = Ok (Some tt) /\
   steps (evs o) = pass_steps labels).
Proof.
  intros labels H o. subst o labels.
  rewrite (main_multi_run fuel s H), (main_multi_run 0 s H).
  cbn [res st evs].
  destruct (for_each_run_label (Py.split "," (eval_label (flags s))) s)
    as (k & Hk & Hs & Hpos & Hr & Hn).
  cbn zeta in Hs, Hr, Hn.
  split; [reflexivity|]. split; [|split; [|split]].
  - destruct (res (for_each _ _ s)); discriminate.
  - exists k. split.
    + split; [|exact Hk]. apply Hpos. intro E. rewrite E in H. cbn in H. lia.
    + split; [exact Hs|]. split.
      * intros r Hres. apply Hr.
        destruct (res (for_each _ _ s)) as [[]| |]; try discriminate Hres.
        reflexivity.
      * intros Hlt r Hres. apply (Hn Hlt).
        destruct (res (for_each _ _ s)) as [[]| |]; try discriminate Hres.
        reflexivity.
  - intros pre l post Hsplit Hpre Hfail.
    rewrite Hsplit, (for_each_fails (run_label env) pre l post s Hpre Hfail).
    assert (steps (evs (for_each pre (run_label env) s)
                   ++ evs (run_label env l
                             (st (for_each pre (run_label env) s))))
            = pass_steps (pre ++ [l])) as Hsteps.
    { rewrite steps_app, run_label_steps, pass_steps_app.
      f_equal.
      destruct (for_each_run_label pre s) as (k' & _ & Hs' & _ & Hr' & _).
      cbn zeta in Hs', Hr'. rewrite (Hr' Hpre), firstn_all in Hs'.
      exact Hs'. }
    revert Hfail Hsteps.
    generalize (run_label env l (st (for_each pre (run_label env) s))).
    generalize (evs (for_each pre (run_label env) s)).
    intros before run Hfail Hsteps.
    cbn [res st evs].
    split; [|split; [|split; [reflexivity|split; [reflexivity|exact Hsteps]]]].
    + destruct (res run) as [u| |];
        [exfalso; exact (Hfail u eq_refl) | reflexivity | reflexivity].
    + intro r. destruct (res run) as [u| |];
        [exfalso; exact (Hfail u eq_refl) | discriminate | discriminate].
  - intro Hall. rewrite Hall. cbn [pass_result].
    split; [reflexivity|].
    rewrite (Hr Hall), firstn_all in Hs. exact Hs.
Qed.

(** The run for an empty label fails the assertion right after the reset. *)
Lemma run_empty_label (s : State) :
  run_label env "" s =
  {| res := Raise (AssertionError "`checkpoint_dir` is missing.");
     st := reset_for "" s;
     evs := [ResetDefaultGraph;
             EnterEvalMain (Some 1%Z) (flags (reset_for "" s))] |}.
Proof.
  rewrite run_label_eq.
  assert (labelled (reset_for "" s) = reset_for "" s) as HL
    by (apply labelled_no_label; reflexivity).
  rewrite eval_main_assert_fails; rewrite HL; reflexivity.
Qed.

(** C10.  Let the [eval_label] flag be non-empty and split into the labels
    [pre], an empty label, and the labels [post].  Then there is more than one
    label, so [main] takes the multi-run branch; and if the runs for [pre]
    return, the run for the empty label is entered with [checkpoint_dir] and
    [pipeline_config_path] reset to empty, the label changes no flag, and
    [main] ends there with the assertion failure: the steps logged are those
    of [pre] and of the empty label, and no label of [post] is run. *)
Theorem empty_label_fails_assertion (fuel : nat) (s : State)
  (pre post : list string) :
  eval_label (flags s) <> "" ->
  Py.split "," (eval_label (flags s)) = pre ++ "" :: post ->
  let before := for_each pre (run_label env) s in
  res before = Ok tt ->
  let o := main env (S fuel) s in
  1 < length (Py.split "," (eval_label (flags s))) /\
  res o = Raise (AssertionError "`checkpoint_dir` is missing.") /\
  st o = reset_for "" (st before) /\
  checkpoint_dir (flags (st o)) = "" /\
  evs o = evs before ++
          [ResetDefaultGraph;
           EnterEvalMain (Some 1%Z) (flags (reset_for "" (st before)))] /\
  steps (evs o) = pass_steps (pre ++ [""]).
Proof.
  intros Hne Hsplit before Hpre o. subst o before.
  assert (1 < length (Py.split "," (eval_label (flags s)))) as Hlen.
  { apply split_empty_piece; [exact Hne|].
    rewrite Hsplit. apply in_or_app. right. left. reflexivity. }
  split; [exact Hlen|].
  rewrite (main_multi_run fuel s Hlen). cbn [res st evs].
  rewrite Hsplit, (for_each_app (run_label env) pre ("" :: post) s Hpre).
  cbn [res st evs for_each].
  set (s1 := st (for_each pre (run_label env) s)).
  destruct (bind_stops (run_label env "")
              (fun _ => for_each post (run_label env)) s1)
    as (Hst & Hev & _ & Hraise).
  { intro a. rewrite run_empty_label. discriminate. }
  rewrite Hst, Hev, (Hraise _ (f_equal res (run_empty_label s1))).
  rewrite run_empty_label. cbn [res st evs pass_result].
  repeat split.
  rewrite steps_app.
  destruct (for_each_run_label pre s) as (k & Hk & Hs & _ & Hr & _).
  cbn zeta in Hs, Hr. rewrite (Hr Hpre), firstn_all in Hs.
  rewrite Hs, pass_steps_app. reflexivity.
Qed.


(** ** More on the pieces of the label flag *)

Lemma str_join_cons_char (sep c : ascii) (piece : string)
  (pieces : list string) :
  str_join sep (String c piece :: pieces)
  = String c (str_join sep (piece :: pieces)).
Proof. destruct pieces; reflexivity. Qed.

Lemma split_length (sep : ascii) (s : string) :
  length (Py.split sep s) = S (str_count sep s).
Proof.
  induction s as [|c rest IH]; simpl.
  - reflexivity.
  - destruct (Ascii.eqb c sep).
    + simpl. rewrite IH. reflexivity.
    + destruct (Py.split sep rest) as [|p ps] eqn:E.
      * exfalso. exact (split_not_nil _ _ E).
      * simpl in *. exact IH.
Qed.

Lemma split_pieces_clean (sep : ascii) (s piece : string) :
  In piece (Py.split sep s) -> str_count sep piece = 0.
Proof.
  revert piece. induction s as [|c rest IH]; simpl; intros piece H.
  - destruct H as [<-|[]]. reflexivity.
  - destruct (Ascii.eqb c sep) eqn:Ec.
    + destruct H as [<-|H]; [reflexivity | apply IH; exact H].
    + destruct (Py.split sep rest) as [|p ps] eqn:E.
      * exfalso. exact (split_not_nil _ _ E).
      * destruct H as [<-|H].
        -- simpl. rewrite Ec. apply IH. left. reflexivity.
        -- apply IH. right. exact H.
Qed.

Lemma join_split (sep : ascii) (s : string) :
  str_join sep (Py.split sep s) = s.
Proof.
  induction s as [|c rest IH]; simpl.
  - reflexivity.
  - destruct (Ascii.eqb c sep) eqn:Ec.
    + apply Ascii.eqb_eq in Ec. subst c.
      destruct (Py.split sep rest) as [|p ps] eqn:E.
      * exfalso. exact (split_not_nil _ _ E).
      * cbn [str_join]. cbn [str_join] in IH. rewrite IH. reflexivity.
    + destruct (Py.split sep rest) as [|p ps] eqn:E.
      * exfalso. exact (split_not_nil _ _ E).
      * rewrite str_join_cons_char, IH. reflexivity.
Qed.

(** X12.  The labels that [main] gets by splitting the [eval_label] flag at
    the commas: there is one more label than there are commas in the flag,
    no label holds a comma, and the labels joined by commas give back the
    flag, so nothing of the flag is dropped or trimmed. *)
Theorem label_list_round_trip (fl : Flags) :
  let labels := Py.split "," (eval_label fl) in
  length labels = S (str_count "," (eval_label fl)) /\
  (forall label, In label labels -> str_count "," label = 0) /\
  str_join "," labels = eval_label fl.
Proof.
  cbn zeta. split; [apply split_length|]. split.
  - intros label H. exact (split_pieces_clean _ _ _ H).
  - apply join_split.
Qed.




(** ** More on the configuration readers *)

(** X1.  The reader of the pipeline file opens the file of the
    [pipeline_config_path] flag and nothing else, and leaves the state alone.
    A file that cannot be read or does not parse is an error.  When the
    reader returns, the model and evaluation configurations are those of the
    parsed pipeline, and the input configuration is its training reader if
    [eval_training_data] is set and its evaluation reader otherwise. *)
Theorem pipeline_file_configs (s : State) :
  let o := get_configs_from_pipeline_file env s in
  let path := pipeline_config_path (flags s) in
  st o = s /\
  evs o = [Call FromPipelineFile; GFileOpen path] /\
  (gfile_read env path = None -> res o = Raise (NotFoundError path)) /\
  (forall text,
     gfile_read env path = Some text -> parse_pipeline env text = None ->
     res o = Raise (ParseError path)) /\
  (forall model_cfg eval_cfg input_cfg,
     res o = Ok (model_cfg, eval_cfg, input_cfg) ->
     exists pipeline_config,
       parsed_from env (parse_pipeline env) path pipeline_config /\
       model_cfg = model pipeline_config /\
       eval_cfg = eval_config pipeline_config /\
       input_cfg =
         if eval_training_data (flags s)
         then train_input_reader pipeline_config
         else eval_input_reader pipeline_config).
Proof.
  cbn zeta. unfold get_configs_from_pipeline_file, parsed_from.
  rewrite bind_emit, bind_get_flags, bind_gfile.
  destruct (gfile_read env (pipeline_config_path (flags s))) as [text|]
    eqn:R.
  - rewrite bind_merge.
    destruct (parse_pipeline env text) as [pc|] eqn:P;
      cbn [res st evs logged ret];
      (split; [reflexivity|]); (split; [reflexivity|]);
      (split; [discriminate|]); split.
    + intros t Ht. injection Ht as <-. congruence.
    + intros mc ec ic H. injection H as <- <- <-.
      exists pc. repeat split. exists text. auto.
    + intros t Ht Hp. reflexivity.
    + discriminate.
  - cbn [res st evs].
    split; [reflexivity|]. split; [reflexivity|].
    split; [reflexivity|]. split; [discriminate|discriminate].
Qed.


Lemma append_assoc (a b c : string) :
  ((a ++ b) ++ c)%string = (a ++ b ++ c)%string.
Proof.
  induction a as [|x a IH]; simpl.
  - reflexivity.
  - rewrite IH. reflexivity.
Qed.

Lemma endswith_appended (c : ascii) (s : string) :
  Py.endswith c (s ++ String c "") = true.
Proof.
  induction s as [|a rest IH].
  - simpl. apply Ascii.eqb_refl.
  - change ((String a rest ++ String c "")%string)
      with (String a (rest ++ String c "")).
    destruct rest as [|b rest']; [simpl; apply Ascii.eqb_refl|].
    exact IH.
Qed.

(** A slash at the end of the directory does not change the joined path. *)
Lemma os_path_join_trailing_slash (dir name : string) :
  dir <> "" -> Py.endswith "/" dir = false ->
  Py.startswith "/" name = false ->
  Py.os_path_join (dir ++ "/") name = Py.os_path_join dir name.
Proof.
  intros Hd He Hn.
  rewrite (os_path_join_name _ _ Hn), (os_path_join_name _ _ Hn).
  rewrite endswith_appended, orb_true_r, He.
  apply String.eqb_neq in Hd. rewrite Hd. apply append_assoc.
Qed.

(** X15.  The reader of the checkpoint directory reads the same files, with
    the same result, whether or not the [checkpoint_dir] flag has a slash at
    its end. *)
Theorem checkpoint_dir_trailing_slash (s : State) (dir : string) :
  dir <> "" ->
  Py.endswith "/" dir = false ->
  let o := get_configs_from_checkpoint_dir env (with_checkpoint_dir dir s) in
  let o' :=
    get_configs_from_checkpoint_dir env
      (with_checkpoint_dir (dir ++ "/") s) in
  res o' = res o /\ evs o' = evs o.
Proof.
  intros Hd He. cbn zeta.
  unfold get_configs_from_checkpoint_dir, with_checkpoint_dir.
  rewrite !bind_emit, !bind_get_flags. cbv zeta.
  cbn [flags checkpoint_dir eval_training_data set_checkpoint_dir].
  rewrite !(os_path_join_trailing_slash dir "eval.config" Hd He eq_refl),
    !(os_path_join_trailing_slash dir "model.config" Hd He eq_refl),
    !(os_path_join_trailing_slash dir "train_input.config" Hd He eq_refl),
    !(os_path_join_trailing_slash dir "eval_input.config" Hd He eq_refl).
  rewrite !bind_gfile.
  destruct (gfile_read env (Py.os_path_join dir "eval.config")) as [t1|];
    [|split; reflexivity].
  rewrite !bind_merge.
  destruct (parse_eval env t1) as [ec'|]; [|split; reflexivity].
  rewrite !bind_gfile.
  destruct (gfile_read env (Py.os_path_join dir "model.config")) as [t2|];
    [|split; reflexivity].
  rewrite !bind_merge.
  destruct (parse_model env t2) as [mc'|]; [|split; reflexivity].
  rewrite !bind_gfile.
  destruct (eval_training_data (flags s)).
  - destruct (gfile_read env (Py.os_path_join dir "train_input.config"))
      as [t3|]; [|split; reflexivity].
    rewrite !bind_merge.
    destruct (parse_input env t3) as [ic'|]; split; reflexivity.
  - destruct (gfile_read env (Py.os_path_join dir "eval_input.config"))
      as [t3|]; [|split; reflexivity].
    rewrite !bind_merge.
    destruct (parse_input env t3) as [ic'|]; split; reflexivity.
Qed.


(** ** More on [eval_main] *)

(** What a label does to the flags, and what it leaves alone. *)
Lemma apply_eval_label_set (fl : Flags) :
  eval_label fl <> "" ->
  pipeline_config_path (apply_eval_label fl) =
    (if String.eqb (pipeline_config_path fl) ""
     then ("../configs/test/" ++ eval_label fl ++ ".config")%string
     else pipeline_config_path fl) /\
  checkpoint_dir (apply_eval_label fl) =
    (if String.eqb (checkpoint_dir fl) ""
     then ("../checkpoints/train/" ++ eval_label fl)%string
     else checkpoint_dir fl) /\
  eval_dir (apply_eval_label fl) = ("../checkpoints/eval/" ++ eval_label fl)%string /\
  eval_tag (apply_eval_label fl) = eval_label fl.
Proof.
  intro H. apply truthy_true in H. unfold apply_eval_label. rewrite H.
  destruct fl; flag_simpl.
  destruct (String.eqb pipeline_config_path0 ""); flag_simpl;
    destruct (String.eqb checkpoint_dir0 ""); flag_simpl;
    repeat (split; [reflexivity|]); reflexivity.
Qed.

Lemma apply_eval_label_keeps (fl : Flags) :
  eval_label (apply_eval_label fl) = eval_label fl /\
  gpu_fraction (apply_eval_label fl) = gpu_fraction fl /\
  eval_training_data (apply_eval_label fl) = eval_training_data fl /\
  eval_config_path (apply_eval_label fl) = eval_config_path fl /\
  model_config_path (apply_eval_label fl) = model_config_path fl /\
  input_config_path (apply_eval_label fl) = input_config_path fl.
Proof.
  unfold apply_eval_label. destruct (Py.truthy (eval_label fl)).
  - destruct fl; flag_simpl.
    destruct (String.eqb pipeline_config_path0 ""); flag_simpl;
      destruct (String.eqb checkpoint_dir0 ""); flag_simpl;
      repeat (split; [reflexivity|]); reflexivity.
  - repeat (split; [reflexivity|]); reflexivity.
Qed.

Lemma labelled_paths_set (s : State) :
  eval_label (flags s) <> "" ->
  checkpoint_dir (flags (labelled s)) <> "" /\
  pipeline_config_path (flags (labelled s)) <> "" /\
  eval_dir (flags (labelled s)) <> "".
Proof.
  intro H. destruct (apply_eval_label_set (flags s) H) as (Hp & Hc & Hd & _).
  unfold labelled. cbn [flags]. rewrite Hp, Hc, Hd.
  split; [|split].
  - destruct (String.eqb (checkpoint_dir (flags s)) "") eqn:E.
    + discriminate.
    + apply String.eqb_neq. exact E.
  - destruct (String.eqb (pipeline_config_path (flags s)) "") eqn:E.
    + discriminate.
    + apply String.eqb_neq. exact E.
  - discriminate.
Qed.

(** The derivation of the output directory touches the [eval_tag] and
    [eval_dir] flags only. *)
Lemma derive_eval_dir_keeps (s : State) :
  let fl' := flags (st (@derive_eval_dir DetectionModel EvalConfig s)) in
  checkpoint_dir fl' = checkpoint_dir (flags s) /\
  gpu_fraction fl' = gpu_fraction (flags s) /\
  eval_label fl' = eval_label (flags s) /\
  pipeline_config_path fl' = pipeline_config_path (flags s).
Proof.
  cbn zeta. destruct (string_dec (eval_dir (flags s)) "") as [E|E].
  - rewrite (derive_eval_dir_derived _ E). cbn [st flags].
    destruct (flags s); repeat split; reflexivity.
  - rewrite (derive_eval_dir_given _ E). repeat split; reflexivity.
Qed.

Lemma evaluations_opens (paths : list string) :
  evaluations (map (@GFileOpen DetectionModel EvalConfig) paths) = [].
Proof. induction paths; simpl; auto. Qed.

Lemma evaluations_app (l1 l2 : list (@event DetectionModel EvalConfig)) :
  evaluations (l1 ++ l2) = evaluations l1 ++ evaluations l2.
Proof.
  induction l1 as [|e l1 IH]; simpl.
  - reflexivity.
  - destruct e; simpl; rewrite IH; reflexivity.
Qed.

(** The evaluator calls in the log of a run, and the result of the run. *)
Lemma eval_main_evaluations (mx : option Z) (s : State) :
  let o := eval_main env mx s in
  (evaluations (evs o) = [] /\ exists e, res o = Raise e) \/
  (exists a, evaluations (evs o) = [a] /\
             res o = result_of (evaluate env a)).
Proof.
  cbn zeta.
  destruct (get_configs_reads (labelled s)) as (_ & _ & paths & Hg).
  destruct (eval_main_cases mx s)
    as [(_ & H) | [(_ & e & _ & H) | (_ & cfg & _ & H)]];
    cbn zeta in H; rewrite H; cbn [res evs].
  - left. split; [reflexivity | eauto].
  - left. split; [|eauto]. rewrite Hg. cbn [evaluations].
    apply evaluations_opens.
  - rewrite Hg. cbn [evaluations app].
    rewrite !evaluations_app, evaluations_opens.
    destruct (derive_eval_dir_calls (labelled s)) as (_ & _ & Hd).
    rewrite Hd. cbn [app].
    destruct (run_evaluation_cases mx cfg
                (st (@derive_eval_dir DetectionModel EvalConfig (labelled s))))
      as (_ & [((e & He) & [Hr|Hr]) | (rs & lm & m & _ & _ & _ & Hres & Hr)]);
      rewrite Hr.
    + left. split; [reflexivity | eauto].
    + left. split; [reflexivity | eauto].
    + right. eexists. split; [reflexivity | exact Hres].
Qed.

Lemma evaluations_in (l : list (@event DetectionModel EvalConfig))
  (a : EvalArgs) :
  In a (evaluations l) <-> In (Evaluate a) l.
Proof.
  induction l as [|e l IH]; [reflexivity|].
  destruct e; cbn [evaluations In]; rewrite IH;
    try (split; [intro H; right; exact H
                | intros [H|H]; [discriminate H | exact H]]).
  split.
  - intros [<-|H]; [left; reflexivity | right; exact H].
  - intros [H|H]; [left; injection H as ->; reflexivity | right; exact H].
Qed.

(** X5.  A run of [eval_main] calls the evaluator at most once.  If it does
    not call it, the run ends with an exception; if it does, the run ends as
    the evaluator ends: it returns when the evaluator returns, raises what
    the evaluator raises, and does not return when the evaluator does not.
    So the run returns exactly when the evaluator was called and returned;
    nothing is caught and nothing is retried. *)
Theorem eval_main_evaluates_once (mx : option Z) (s : State) :
  let o := eval_main env mx s in
  length (evaluations (evs o)) <= 1 /\
  (evaluations (evs o) = [] -> exists e, res o = Raise e) /\
  (forall a, In (Evaluate a) (evs o) ->
             res o = result_of (evaluate env a)) /\
  (res o = Ok tt <->
   exists a, evaluations (evs o) = [a] /\ evaluate env a = Returns).
Proof.
  cbn zeta.
  destruct (eval_main_evaluations mx s) as [(H & e & He)|(a & H & Ha)];
    cbn zeta in H.
  - rewrite H. split; [cbn; lia|]. split; [eauto|]. split.
    + intros a Hin. apply evaluations_in in Hin. rewrite H in Hin.
      destruct Hin.
    + rewrite He. split; [discriminate|].
      intros (a & Ha & _). discriminate Ha.
  - rewrite H. split; [cbn; lia|]. split; [discriminate|]. split.
    + intros b Hin. apply evaluations_in in Hin. rewrite H in Hin.
      destruct Hin as [<-|[]]. exact Ha.
    + rewrite Ha. split.
      * intro Hr. exists a. split; [reflexivity|].
        destruct (evaluate env a); try discriminate Hr. reflexivity.
      * intros (b & Hb & Hret). injection Hb as <-. rewrite Hret.
        reflexivity.
Qed.

(** X6.  What [eval_main] hands to the evaluator: its own argument as the
    bound on the number of evaluations, the [gpu_fraction] flag as given, a
    model builder with [is_training] false, the checkpoint directory as it
    is after the label was applied, and the three configurations that the
    chosen reader returned. *)
Theorem evaluator_arguments (mx : option Z) (s : State) (a : EvalArgs) :
  In (Evaluate a) (evs (eval_main env mx s)) ->
  max_number_of_evaluations a = mx /\
  arg_gpu_fraction a = gpu_fraction (flags s) /\
  snd (model_fn a) = false /\
  arg_checkpoint_dir a = checkpoint_dir (flags (labelled s)) /\
  res (get_configs env (labelled s))
  = Ok (fst (model_fn a), arg_eval_config a, create_input_dict_fn a).
Proof.
  intro Hin. apply eval_main_evaluates in Hin.
  destruct Hin as (cfg & rs & lm & m & _ & Hc & _ & _ & _ & ->).
  unfold evaluator_args.
  cbn [max_number_of_evaluations arg_gpu_fraction model_fn
       arg_checkpoint_dir arg_eval_config create_input_dict_fn fst snd].
  destruct (derive_eval_dir_keeps (labelled s)) as (Hd & Hg & _ & _).
  cbn zeta in Hd, Hg.
  destruct (apply_eval_label_keeps (flags s)) as (_ & Hg' & _).
  split; [reflexivity|]. split.
  - rewrite Hg. unfold labelled. cbn [flags]. exact Hg'.
  - split; [reflexivity|]. split; [exact Hd|].
    rewrite Hc. destruct cfg as [[mc ec] ic]. reflexivity.
Qed.

Lemma get_configs_pipeline (s : State) :
  pipeline_config_path (flags s) <> "" ->
  evs (get_configs env s)
  = [Call FromPipelineFile; GFileOpen (pipeline_config_path (flags s))].
Proof.
  intro H. apply truthy_true in H.
  unfold get_configs. rewrite bind_get_flags, H.
  unfold get_configs_from_pipeline_file.
  rewrite bind_emit, bind_get_flags, bind_gfile.
  destruct (gfile_read env (pipeline_config_path (flags s))) as [text|];
    [|reflexivity].
  rewrite bind_merge. destruct (parse_pipeline env text); reflexivity.
Qed.

(** When the output directory is given, by the flag or by the label, a run
    neither reads the clock nor creates a directory. *)
Lemma eval_main_given_dir_event (mx : option Z) (s : State) (e : event) :
  eval_dir (flags (labelled s)) <> "" ->
  In e (evs (eval_main env mx s)) ->
  is_clock e = false /\ (forall path, e <> MkdirP path).
Proof.
  intros Hdir Hin. apply eval_main_event in Hin.
  destruct Hin as [ -> | [ (r & ->) | [ (q & ->) | (_ & cfg & _ & H) ] ] ];
    try (split; [reflexivity | discriminate]).
  cbn zeta in H. rewrite (derive_eval_dir_given _ Hdir) in H.
  cbn [evs st] in H. destruct H as [[]|H].
  apply run_evaluation_event in H.
  destruct H as [ -> | [ -> | (rs & lm & m & _ & _ & _ & ->) ] ];
    (split; [reflexivity | discriminate]).
Qed.

(** X3.  With a non-empty [eval_label], [eval_main] always gets past the
    check of [checkpoint_dir] and always reads the configuration from a
    pipeline file, whatever [eval_config_path] and the other path flags
    hold: the readers of the three files and of the checkpoint directory
    cannot be reached.  The one configuration file opened is the
    [pipeline_config_path] flag if it was given, and
    [../configs/test/<label>.config] otherwise. *)
Theorem label_selects_pipeline_file (mx : option Z) (s : State) :
  eval_label (flags s) <> "" ->
  let o := eval_main env mx s in
  let path :=
    if String.eqb (pipeline_config_path (flags s)) ""
    then ("../configs/test/" ++ eval_label (flags s) ++ ".config")%string
    else pipeline_config_path (flags s) in
  checkpoint_dir (flags (labelled s)) <> "" /\
  calls (evs o) = [FromPipelineFile] /\
  In (GFileOpen path) (evs o) /\
  (forall p, In (GFileOpen p) (evs o) -> p = path).
Proof.
  intro Hl. cbn zeta.
  destruct (labelled_paths_set s Hl) as (Hc & Hp & Hd).
  destruct (apply_eval_label_set (flags s) Hl) as (Hpath & _).
  pose proof (get_configs_pipeline (labelled s) Hp) as Hg.
  change (pipeline_config_path (flags (labelled s)))
    with (pipeline_config_path (apply_eval_label (flags s))) in Hg.
  rewrite Hpath in Hg.
  split; [exact Hc|]. split.
  - rewrite eval_main_calls. unfold spec_selected_reader.
    apply truthy_true in Hc. apply truthy_true in Hp.
    rewrite Hc, Hp. reflexivity.
  - destruct (eval_main_cases mx s)
      as [(Hc' & _) | [(_ & e & _ & H) | (_ & cfg & _ & H)]];
      [contradiction | |]; cbn zeta in H; rewrite H; cbn [evs];
      rewrite Hg.
    + split.
      * right. right. left. reflexivity.
      * intros p [Hin|[Hin|[Hin|[]]]]; try discriminate Hin.
        injection Hin as <-. reflexivity.
    + split.
      * right. right. left. reflexivity.
      * intros p [Hin|[Hin|[Hin|Hin]]]; try discriminate Hin.
        -- injection Hin as <-. reflexivity.
        -- exfalso. cbn [app] in Hin.
           rewrite (derive_eval_dir_given _ Hd) in Hin. cbn [evs st app] in Hin.
           apply run_evaluation_event in Hin.
           destruct Hin as [Hin|[Hin|(rs & lm & m & _ & _ & _ & Hin)]];
             discriminate Hin.
Qed.

(** X4.  With an empty [eval_label] and an [eval_dir] flag that is given,
    [eval_main] changes no flag, reads no clock and creates no directory,
    not even the given output directory; the evaluator gets the [eval_dir]
    flag as it stands, whatever [eval_tag] holds. *)
Theorem eval_dir_given_is_kept (mx : option Z) (s : State) :
  eval_label (flags s) = "" ->
  eval_dir (flags s) <> "" ->
  let o := eval_main env mx s in
  st o = s /\
  (forall e, In e (evs o) ->
             is_clock e = false /\ (forall path, e <> MkdirP path)) /\
  (forall a, In (Evaluate a) (evs o) -> arg_eval_dir a = eval_dir (flags s)).
Proof.
  intros Hl Hd. cbn zeta.
  assert (labelled s = s) as HL by (apply labelled_no_label; exact Hl).
  assert (eval_dir (flags (labelled s)) <> "") as Hd'
    by (rewrite HL; exact Hd).
  split; [|split].
  - rewrite (eval_main_flags mx s Hd'). exact HL.
  - intros e Hin. exact (eval_main_given_dir_event mx s e Hd' Hin).
  - intros a Hin. apply eval_main_evaluates in Hin.
    destruct Hin as (cfg & rs & lm & m & _ & _ & _ & _ & _ & ->).
    unfold evaluator_args. cbn [arg_eval_dir].
    rewrite (derive_eval_dir_given _ Hd'). cbn [st]. rewrite HL.
    reflexivity.
Qed.

(** ** Failures on the way to the evaluator *)

Lemma pipeline_file_errors (s : State) (e : exn) :
  res (get_configs_from_pipeline_file env s) = Raise e ->
  exists path, e = NotFoundError path \/ e = ParseError path.
Proof.
  unfold get_configs_from_pipeline_file.
  rewrite bind_emit, bind_get_flags, bind_gfile.
  destruct (gfile_read env (pipeline_config_path (flags s))) as [t1|].
  - rewrite bind_merge. destruct (parse_pipeline env t1);
      cbn [res logged ret]; intro H; [discriminate H|].
    injection H as <-. eauto.
  - cbn [res]. intro H. injection H as <-. eauto.
Qed.

Lemma multiple_files_errors (s : State) (e : exn) :
  res (get_configs_from_multiple_files env s) = Raise e ->
  exists path, e = NotFoundError path \/ e = ParseError path.
Proof.
  unfold get_configs_from_multiple_files.
  rewrite bind_emit, bind_get_flags, bind_gfile.
  destruct (gfile_read env (eval_config_path (flags s))) as [t1|];
    [|cbn [res]; intro H; injection H as <-; eauto].
  rewrite bind_merge.
  destruct (parse_eval env t1);
    [|cbn [res logged]; intro H; injection H as <-; eauto].
  rewrite bind_gfile.
  destruct (gfile_read env (model_config_path (flags s))) as [t2|];
    [|cbn [res logged]; intro H; injection H as <-; eauto].
  rewrite bind_merge.
  destruct (parse_model env t2);
    [|cbn [res logged]; intro H; injection H as <-; eauto].
  rewrite bind_gfile.
  destruct (gfile_read env (input_config_path (flags s))) as [t3|];
    [|cbn [res logged]; intro H; injection H as <-; eauto].
  rewrite bind_merge.
  destruct (parse_input env t3);
    cbn [res logged ret]; intro H; [discriminate H|].
  injection H as <-. eauto.
Qed.

Lemma checkpoint_dir_errors (s : State) (e : exn) :
  res (get_configs_from_checkpoint_dir env s) = Raise e ->
  exists path, e = NotFoundError path \/ e = ParseError path.
Proof.
  unfold get_configs_from_checkpoint_dir.
  rewrite bind_emit, bind_get_flags. cbv zeta. rewrite bind_gfile.
  destruct (gfile_read env (Py.os_path_join _ "eval.config")) as [t1|];
    [|cbn [res]; intro H; injection H as <-; eauto].
  rewrite bind_merge.
  destruct (parse_eval env t1);
    [|cbn [res logged]; intro H; injection H as <-; eauto].
  rewrite bind_gfile.
  destruct (gfile_read env (Py.os_path_join _ "model.config")) as [t2|];
    [|cbn [res logged]; intro H; injection H as <-; eauto].
  rewrite bind_merge.
  destruct (parse_model env t2);
    [|cbn [res logged]; intro H; injection H as <-; eauto].
  rewrite bind_gfile.
  destruct (gfile_read env _) as [t3|];
    [|cbn [res logged]; intro H; injection H as <-; eauto].
  rewrite bind_merge.
  destruct (parse_input env t3);
    cbn [res logged ret]; intro H; [discriminate H|].
  injection H as <-. eauto.
Qed.

Lemma get_configs_errors (s : State) (e : exn) :
  res (get_configs env s) = Raise e ->
  exists path, e = NotFoundError path \/ e = ParseError path.
Proof.
  unfold get_configs. rewrite bind_get_flags.
  destruct (Py.truthy (pipeline_config_path (flags s)));
    [apply pipeline_file_errors|].
  destruct (Py.truthy (eval_config_path (flags s)));
    [apply multiple_files_errors | apply checkpoint_dir_errors].
Qed.

(** X7.  When the configuration cannot be read, [eval_main] stops there
    with the error of the file that is missing or does not parse: the flags
    are as the label left them, no directory was created, and the log holds
    nothing but the entry, the call of the reader and the files it opened,
    so the clock, the record file, the label map and the evaluator were not
    touched. *)
Theorem config_failure_stops_early (mx : option Z) (s : State) (e : exn) :
  checkpoint_dir (flags (labelled s)) <> "" ->
  res (get_configs env (labelled s)) = Raise e ->
  let o := eval_main env mx s in
  res o = Raise e /\
  (exists path, e = NotFoundError path \/ e = ParseError path) /\
  st o = labelled s /\
  evaluations (evs o) = [] /\
  (forall ev, In ev (evs o) ->
     ev = EnterEvalMain mx (flags s) \/
     (exists r, ev = Call r) \/ (exists path, ev = GFileOpen path)).
Proof.
  intros Hc He. cbn zeta.
  rewrite (eval_main_configs_fail mx s e Hc He). cbn [res st evs].
  destruct (get_configs_reads (labelled s)) as (_ & _ & paths & Hg).
  split; [reflexivity|]. split; [exact (get_configs_errors _ _ He)|].
  split; [reflexivity|]. rewrite Hg. split.
  - cbn [evaluations]. apply evaluations_opens.
  - intros ev [<-|[<-|Hin]]; [left; reflexivity | right; left; eauto |].
    right. right. apply in_map_iff in Hin. destruct Hin as (q & <- & _).
    eauto.
Qed.

Lemma sum_ones_failing (records : list (list byte)) (e : exn) (acc : Z) :
  sum_ones (stream_failing records e) acc = inr e.
Proof.
  revert acc. induction records as [|r rest IH]; intro acc; simpl.
  - reflexivity.
  - apply IH.
Qed.

(** X8.  An empty label map is an error: [max] has nothing to choose from,
    so [eval_main] raises [ValueError] after the label map was loaded and
    does not call the evaluator.  By then the output directory was derived
    already, so if it had to be created it exists although no evaluation
    took place. *)
Theorem empty_label_map_is_an_error (mx : option Z) (s : State)
  (cfg : DetectionModel * EvalConfig * InputReader)
  (records : list (list byte)) :
  checkpoint_dir (flags (labelled s)) <> "" ->
  res (get_configs env (labelled s)) = Ok cfg ->
  tf_record_iterator env (input_path (snd cfg)) = stream_of records ->
  load_labelmap env (label_map_path (snd cfg)) = inl [] ->
  let o := eval_main env mx s in
  res o = Raise (ValueError "max() arg is an empty sequence") /\
  evaluations (evs o) = [] /\
  In (LoadLabelMap (label_map_path (snd cfg))) (evs o) /\
  (eval_dir (flags (labelled s)) = "" ->
   In (derived_dir (labelled s)) (dirs (world (st o)))).
Proof.
  intros Hc Hcfg Hrec Hlm. cbn zeta.
  pose proof (eval_main_runs mx s cfg Hc Hcfg) as E. cbn zeta in E.
  set (d := @derive_eval_dir DetectionModel EvalConfig (labelled s)) in *.
  assert (run_evaluation env mx cfg (st d) =
          {| res := Raise (ValueError "max() arg is an empty sequence");
             st := st d;
             evs := [RecordScan (input_path (snd cfg));
                     LoadLabelMap (label_map_path (snd cfg))] |}) as R.
  { destruct cfg as [[mc ec] ic]. cbn [snd] in *.
    unfold run_evaluation.
    rewrite bind_count_records, Hrec, sum_ones_stream_of.
    rewrite bind_load_labelmap, Hlm.
    cbn [map Py.max]. rewrite bind_raise. reflexivity. }
  rewrite E, R. cbn [res st evs].
  destruct (get_configs_reads (labelled s)) as (_ & _ & paths & Hg).
  destruct (derive_eval_dir_calls (labelled s)) as (_ & _ & Hd).
  fold d in Hd.
  split; [reflexivity|]. split; [|split].
  - rewrite Hg. cbn [evaluations app].
    rewrite !evaluations_app, evaluations_opens, Hd. reflexivity.
  - right. apply in_or_app. right. apply in_or_app. right.
    right. left. reflexivity.
  - intro Hdir. subst d. rewrite (derive_eval_dir_derived _ Hdir).
    cbn [st world]. apply make_dir_in.
Qed.

(** X9.  When the iterator over the record file raises, at once or after
    some records, [eval_main] raises that error: the partial count is
    dropped, the label map is not loaded and the evaluator is not called. *)
Theorem record_scan_failure (mx : option Z) (s : State)
  (cfg : DetectionModel * EvalConfig * InputReader)
  (records : list (list byte)) (e : exn) :
  checkpoint_dir (flags (labelled s)) <> "" ->
  res (get_configs env (labelled s)) = Ok cfg ->
  tf_record_iterator env (input_path (snd cfg)) = stream_failing records e ->
  let o := eval_main env mx s in
  res o = Raise e /\
  evaluations (evs o) = [] /\
  In (RecordScan (input_path (snd cfg))) (evs o) /\
  (forall path, ~ In (LoadLabelMap path) (evs o)).
Proof.
  intros Hc Hcfg Hrec. cbn zeta.
  pose proof (eval_main_runs mx s cfg Hc Hcfg) as E. cbn zeta in E.
  set (d := @derive_eval_dir DetectionModel EvalConfig (labelled s)) in *.
  assert (run_evaluation env mx cfg (st d) =
          {| res := Raise e; st := st d;
             evs := [RecordScan (input_path (snd cfg))] |}) as R.
  { destruct cfg as [[mc ec] ic]. cbn [snd] in *.
    unfold run_evaluation.
    rewrite bind_count_records, Hrec, sum_ones_failing. reflexivity. }
  rewrite E, R. cbn [res st evs].
  destruct (get_configs_reads (labelled s)) as (_ & _ & paths & Hg).
  destruct (derive_eval_dir_calls (labelled s)) as (_ & _ & Hd).
  fold d in Hd.
  split; [reflexivity|]. split; [|split].
  - rewrite Hg. cbn [evaluations app].
    rewrite !evaluations_app, evaluations_opens, Hd. reflexivity.
  - right. apply in_or_app. right. apply in_or_app. right.
    left. reflexivity.
  - intros path [Hin|Hin]; [discriminate Hin|].
    rewrite Hg in Hin. cbn [app] in Hin.
    destruct Hin as [Hin|Hin]; [discriminate Hin|].
    apply in_app_or in Hin. destruct Hin as [Hin|Hin].
    + apply in_map_iff in Hin. destruct Hin as (q & Hq & _). discriminate Hq.
    + apply in_app_or in Hin. destruct Hin as [Hin|Hin].
      * subst d.
        destruct (string_dec (eval_dir (flags (labelled s))) "") as [Ed|Ed].
        -- apply (derive_eval_dir_event _ _ Ed) in Hin.
           destruct Hin as [(Hin & _)|Hin]; discriminate Hin.
        -- rewrite (derive_eval_dir_given _ Ed) in Hin. destruct Hin.
      * destruct Hin as [Hin|[]]. discriminate Hin.
Qed.


(** ** More on the driver loop *)

(** The flags with which the run for a non-empty label works. *)
Lemma reset_for_labelled (label : string) (s : State) :
  label <> "" ->
  let fl := flags (labelled (reset_for label s)) in
  pipeline_config_path fl = ("../configs/test/" ++ label ++ ".config")%string
  /\ checkpoint_dir fl = ("../checkpoints/train/" ++ label)%string
  /\ eval_dir fl = ("../checkpoints/eval/" ++ label)%string
  /\ eval_tag fl = label
  /\ eval_label fl = label.
Proof.
  intro H. cbn zeta.
  assert (eval_label (flags (reset_for label s)) = label) as Hl
    by reflexivity.
  assert (eval_label (flags (reset_for label s)) <> "") as Hne
    by (rewrite Hl; exact H).
  destruct (apply_eval_label_set _ Hne) as (Hp & Hc & Hd & Ht).
  destruct (apply_eval_label_keeps (flags (reset_for label s))) as (Hk & _).
  unfold labelled. cbn [flags]. rewrite Hp, Hc, Hd, Ht, Hk, Hl.
  repeat split; reflexivity.
Qed.

Lemma run_label_state (label : string) (s : State) :
  label <> "" ->
  st (run_label env label s) = labelled (reset_for label s).
Proof.
  intro H. rewrite run_label_eq. unfold logged. cbn [st].
  apply eval_main_flags.
  destruct (reset_for_labelled label s H) as (_ & _ & Hd & _).
  cbn zeta in Hd. rewrite Hd. discriminate.
Qed.

Lemma run_label_evaluate (label : string) (s : State) (a : EvalArgs) :
  label <> "" ->
  In (Evaluate a) (evs (run_label env label s)) ->
  arg_checkpoint_dir a = ("../checkpoints/train/" ++ label)%string /\
  arg_eval_dir a = ("../checkpoints/eval/" ++ label)%string /\
  max_number_of_evaluations a = Some 1%Z.
Proof.
  intros H Hin. rewrite run_label_eq in Hin. unfold logged in Hin.
  cbn [evs] in Hin. destruct Hin as [Hin|Hin]; [discriminate Hin|].
  apply eval_main_evaluates in Hin.
  destruct Hin as (cfg & rs & lm & m & _ & _ & _ & _ & _ & ->).
  destruct (reset_for_labelled label s H) as (_ & Hc & Hd & _).
  cbn zeta in Hc, Hd.
  assert (eval_dir (flags (labelled (reset_for label s))) <> "") as Hne
    by (rewrite Hd; discriminate).
  unfold evaluator_args.
  cbn [arg_checkpoint_dir arg_eval_dir max_number_of_evaluations].
  rewrite (derive_eval_dir_given _ Hne). cbn [st].
  rewrite Hc, Hd. repeat split; reflexivity.
Qed.

(** X13.  The run of the driver loop for a non-empty label takes everything
    from the label, whatever the flags held before: the one configuration
    file opened is [../configs/test/<label>.config], read as a pipeline
    file, and the evaluator, if the run gets to it, is given the checkpoint
    directory [../checkpoints/train/<label>], the output directory
    [../checkpoints/eval/<label>] and a bound of one evaluation.  A
    [pipeline_config_path] or [checkpoint_dir] given on the command line is
    discarded, and the run creates no directory. *)
Theorem run_label_takes_paths_from_label (label : string) (s : State) :
  label <> "" ->
  let o := run_label env label s in
  calls (evs o) = [FromPipelineFile] /\
  (forall p, In (GFileOpen p) (evs o) <->
             p = ("../configs/test/" ++ label ++ ".config")%string) /\
  (forall a, In (Evaluate a) (evs o) ->
     arg_checkpoint_dir a = ("../checkpoints/train/" ++ label)%string /\
     arg_eval_dir a = ("../checkpoints/eval/" ++ label)%string /\
     max_number_of_evaluations a = Some 1%Z) /\
  world (st o) = world s /\
  eval_label (flags (st o)) = label.
Proof.
  intro H. cbn zeta.
  destruct (reset_for_labelled label s H) as (Hp & Hc & Hd & _ & Hl).
  cbn zeta in Hp, Hc, Hd, Hl.
  set (s1 := reset_for label s) in *.
  assert (pipeline_config_path (flags (labelled s1)) <> "") as Hp'
    by (rewrite Hp; discriminate).
  assert (checkpoint_dir (flags (labelled s1)) <> "") as Hc'
    by (rewrite Hc; discriminate).
  assert (eval_dir (flags (labelled s1)) <> "") as Hd'
    by (rewrite Hd; discriminate).
  pose proof (get_configs_pipeline (labelled s1) Hp') as Hg.
  rewrite Hp in Hg.
  split; [|split; [|split; [|split]]].
  - rewrite run_label_eq. unfold logged. cbn [evs calls].
    rewrite eval_main_calls. unfold spec_selected_reader.
    apply truthy_true in Hc'. apply truthy_true in Hp'.
    fold s1. rewrite Hc', Hp'. reflexivity.
  - intro p. rewrite run_label_eq. unfold logged. cbn [evs]. fold s1.
    destruct (eval_main_cases (Some 1%Z) s1)
      as [(Hc'' & _) | [(_ & e & _ & E) | (_ & cfg & _ & E)]];
      [contradiction | |]; cbn zeta in E; rewrite E; cbn [evs];
      rewrite Hg.
    + split.
      * intros [Hin|[Hin|[Hin|[Hin|[]]]]]; try discriminate Hin.
        injection Hin as <-. reflexivity.
      * intros ->. right. right. right. left. reflexivity.
    + split.
      * intros [Hin|[Hin|[Hin|[Hin|Hin]]]]; try discriminate Hin.
        -- injection Hin as <-. reflexivity.
        -- exfalso. cbn [app] in Hin.
           rewrite (derive_eval_dir_given _ Hd') in Hin.
           cbn [evs st app] in Hin.
           apply run_evaluation_event in Hin.
           destruct Hin as [Hin|[Hin|(rs & lm & m & _ & _ & _ & Hin)]];
             discriminate Hin.
      * intros ->. right. right. right. left. reflexivity.
  - intros a Hin. exact (run_label_evaluate label s a H Hin).
  - rewrite (run_label_state label s H). reflexivity.
  - rewrite (run_label_state label s H). exact Hl.
Qed.

(** A run of the loop that returns: its label is not empty and the
    evaluator was called once, with the directories of the label. *)
Lemma run_label_returns (label : string) (s : State) :
  res (run_label env label s) = Ok tt ->
  label <> "" /\
  world (st (run_label env label s)) = world s /\
  exists a,
    evaluations (evs (run_label env label s)) = [a] /\
    evaluate env a = Returns /\
    arg_checkpoint_dir a = ("../checkpoints/train/" ++ label)%string /\
    arg_eval_dir a = ("../checkpoints/eval/" ++ label)%string /\
    max_number_of_evaluations a = Some 1%Z.
Proof.
  intro Hr.
  assert (label <> "") as Hne.
  { intro E. subst label. rewrite run_empty_label in Hr. discriminate Hr. }
  split; [exact Hne|]. split.
  { rewrite (run_label_state label s Hne). reflexivity. }
  assert (exists a, evaluations (evs (run_label env label s)) = [a] /\
                    evaluate env a = Returns) as (a & Ha & Hret).
  { rewrite run_label_eq in Hr |- *. unfold logged in Hr |- *.
    cbn [res evs evaluations] in Hr |- *.
    destruct (eval_main_evaluations (Some 1%Z) (reset_for label s))
      as [(_ & e & He)|(a & Ha & Hres)]; cbn zeta in *.
    - rewrite He in Hr. discriminate Hr.
    - exists a. split; [exact Ha|]. rewrite Hres in Hr.
      destruct (evaluate env a); try discriminate Hr. reflexivity. }
  exists a. split; [exact Ha|]. split; [exact Hret|].
  apply (run_label_evaluate label s a Hne).
  apply evaluations_in. rewrite Ha. left. reflexivity.
Qed.

Lemma for_each_returns (labels : list string) (s : State) :
  let o := for_each labels (run_label env) s in
  res o = Ok tt ->
  (forall l, In l labels -> l <> "") /\
  world (st o) = world s /\
  map arg_eval_dir (evaluations (evs o))
  = map (fun l => ("../checkpoints/eval/" ++ l)%string) labels /\
  map arg_checkpoint_dir (evaluations (evs o))
  = map (fun l => ("../checkpoints/train/" ++ l)%string) labels /\
  (forall a, In a (evaluations (evs o)) ->
     evaluate env a = Returns /\
     max_number_of_evaluations a = Some 1%Z).
Proof.
  revert s. induction labels as [|l rest IH]; intro s; cbn zeta.
  - intros _. cbn [for_each]. unfold ret. cbn [st evs evaluations map].
    split; [intros l []|]. repeat (split; [reflexivity|]). intros a [].
  - cbn [for_each]. intro H.
    destruct (res (run_label env l s)) as [[]|e|] eqn:E.
    + rewrite (bind_ok _ _ _ _ E) in H |- *. cbn [res st evs] in H |- *.
      destruct (run_label_returns l s E)
        as (Hne & Hw & a & Ha & Hret & Hc & Hd & Hm).
      destruct (IH _ H) as (I1 & I2 & I3 & I4 & I5). cbn zeta in *.
      rewrite evaluations_app, Ha. cbn [app map].
      rewrite I2, Hw, I3, I4, Hc, Hd.
      split; [|repeat (split; [reflexivity|])].
      * intros x [<-|Hx]; [exact Hne | exact (I1 x Hx)].
      * intros b [<-|Hb]; [split; [exact Hret | exact Hm] | exact (I5 b Hb)].
    + exfalso.
      destruct (bind_stops (run_label env l)
                  (fun _ => for_each rest (run_label env)) s)
        as (_ & _ & Hno & _).
      { intro x. rewrite E. discriminate. }
      exact (Hno tt H).
    + exfalso.
      destruct (bind_stops (run_label env l)
                  (fun _ => for_each rest (run_label env)) s)
        as (_ & _ & Hno & _).
      { intro x. rewrite E. discriminate. }
      exact (Hno tt H).
Qed.

(** X14.  When [main] returns from the multi-run branch, no label was empty
    and the evaluator was called once per label, in list order, each time
    with a bound of one evaluation, the checkpoint directory
    [../checkpoints/train/<label>] and the output directory
    [../checkpoints/eval/<label>], and each call returned; no directory was
    created on the way. *)
Theorem multi_run_evaluations (fuel : nat) (s : State)
  (r : option unit) :
  let labels := Py.split "," (eval_label (flags s)) in
  let o := main env (S fuel) s in
  1 < length labels ->
  res o = Ok r ->
  (forall l, In l labels -> l <> "") /\
  map arg_eval_dir (evaluations (evs o))
  = map (fun l => ("../checkpoints/eval/" ++ l)%string) labels /\
  map arg_checkpoint_dir (evaluations (evs o))
  = map (fun l => ("../checkpoints/train/" ++ l)%string) labels /\
  (forall a, In a (evaluations (evs o)) ->
     evaluate env a = Returns /\
     max_number_of_evaluations a = Some 1%Z) /\
  world (st o) = world s.
Proof.
  cbn zeta. intros Hlen Hres.
  rewrite (main_multi_run fuel s Hlen) in Hres |- *.
  cbn [res st evs] in Hres |- *.
  assert (res (for_each (Py.split "," (eval_label (flags s)))
                 (run_label env) s) = Ok tt) as Hpass.
  { destruct (res (for_each _ _ s)) as [[]| |]; try discriminate Hres.
    reflexivity. }
  destruct (for_each_returns _ s Hpass) as (H1 & H2 & H3 & H4 & H5).
  cbn zeta in *. repeat split; auto; apply H5; assumption.
Qed.

End Properties.

(** * Runs in the concrete world *)

Local Open Scope Z_scope.

(** The precedence of the readers at work: with every path flag given the
    pipeline file wins, and with only a checkpoint directory the directory
    is read. *)
Lemma eval_main_selects_one_reader_witness :
  (checkpoint_dir (flags (labelled (Demo.start Demo.all_paths))) <> "" /\
   pipeline_config_path (flags (labelled (Demo.start Demo.all_paths))) <> "" /\
   calls (evs (eval_main Demo.env None (Demo.start Demo.all_paths)))
   = [FromPipelineFile]) /\
  (checkpoint_dir (flags (labelled (Demo.start Demo.three_files))) <> "" /\
   pipeline_config_path (flags (labelled (Demo.start Demo.three_files))) = "" /\
   eval_config_path (flags (labelled (Demo.start Demo.three_files))) <> "" /\
   calls (evs (eval_main Demo.env None (Demo.start Demo.three_files)))
   = [FromMultipleFiles]).
Proof.
  split.
  - assert (checkpoint_dir (flags (labelled (Demo.start Demo.all_paths)))
            <> "") as H1 by (vm_compute; discriminate).
    assert (pipeline_config_path (flags (labelled (Demo.start Demo.all_paths)))
            <> "") as H2 by (vm_compute; discriminate).
    split; [exact H1|]. split; [exact H2|].
    exact (proj1 (proj2 (eval_main_selects_one_reader Demo.env None
                           (Demo.start Demo.all_paths)) H1) H2).
  - assert (checkpoint_dir (flags (labelled (Demo.start Demo.three_files)))
            <> "") as H1 by (vm_compute; discriminate).
    assert (pipeline_config_path
              (flags (labelled (Demo.start Demo.three_files))) = "")
      as H2 by reflexivity.
    assert (eval_config_path (flags (labelled (Demo.start Demo.three_files)))
            <> "") as H3 by (vm_compute; discriminate).
    split; [exact H1|]. split; [exact H2|]. split; [exact H3|].
    exact (proj1 (proj2 (proj2 (eval_main_selects_one_reader Demo.env None
                                  (Demo.start Demo.three_files)) H1))
             H2 H3).
Defined.

(** C1 as stated fails: with a pipeline file but no checkpoint directory and
    no label, the assertion stops the run before any reader is called. *)
Lemma pipeline_path_without_checkpoint_dir :
  let s := Demo.start Demo.pipeline_only in
  let o := eval_main Demo.env None s in
  pipeline_config_path (flags (labelled s)) = "pipeline.config"%string /\
  calls (evs o) = [] /\
  calls (evs o) <> [FromPipelineFile] /\
  res o = Raise (AssertionError "`checkpoint_dir` is missing.").
Proof.
  vm_compute. repeat split. discriminate.
Qed.

Lemma eval_main_without_checkpoint_dir_witness :
  checkpoint_dir (flags (Demo.start default_flags)) = "" /\
  eval_label (flags (Demo.start default_flags)) = "" /\
  let o := eval_main Demo.env None (Demo.start default_flags) in
  res o = Raise (AssertionError "`checkpoint_dir` is missing.") /\
  st o = Demo.start default_flags /\
  evs o = [EnterEvalMain None default_flags] /\
  (forall e, In e (evs o) -> is_file_io e = false).
Proof.
  split; [reflexivity|]. split; [reflexivity|].
  apply (eval_main_without_checkpoint_dir Demo.env None
           (Demo.start default_flags)); reflexivity.
Defined.

Lemma eval_label_overrides_witness :
  eval_label (flags (Demo.start (Demo.with_label "a"))) <> "" /\
  let fl' :=
    flags (st (eval_main Demo.env None (Demo.start (Demo.with_label "a")))) in
  eval_dir fl' = "../checkpoints/eval/a"%string /\
  eval_tag fl' = "a"%string /\
  pipeline_config_path fl' = "../configs/test/a.config"%string /\
  checkpoint_dir fl' = "/tmp/ckpt"%string.
Proof.
  assert (eval_label (flags (Demo.start (Demo.with_label "a"))) <> "") as H
    by (vm_compute; discriminate).
  split; [exact H|].
  pose proof (eval_label_overrides Demo.env None
                (Demo.start (Demo.with_label "a")) H) as E.
  cbv zeta in E |- *.
  destruct E as (E1 & E2 & E3 & E4 & _).
  rewrite E1, E2, E3, E4. repeat split.
Defined.

Lemma eval_dir_from_tag_witness :
  let s := Demo.start Demo.tagged in
  let o := eval_main Demo.env None s in
  (eval_label (flags s) = "" /\ eval_dir (flags s) = "" /\
   eval_tag (flags s) = "run1"%string /\ "run1"%string <> "" /\
   checkpoint_dir (flags s) <> "" /\
   res (get_configs Demo.env s) = Ok (tt, tt, Demo.eval_reader)) /\
  In (MkdirP "/tmp/ckpt_eval_run1") (evs o) /\
  eval_dir (flags (st o)) = "/tmp/ckpt_eval_run1"%string /\
  eval_tag (flags (st o)) = "run1"%string /\
  In "/tmp/ckpt_eval_run1"%string (dirs (world (st o))) /\
  (forall e, In e (evs o) -> is_clock e = false).
Proof.
  cbv zeta.
  assert ("run1"%string <> "") as Hne by discriminate.
  assert (checkpoint_dir (flags (Demo.start Demo.tagged)) <> "") as Hc
    by (vm_compute; discriminate).
  assert (res (get_configs Demo.env (Demo.start Demo.tagged))
          = Ok (tt, tt, Demo.eval_reader)) as Hcfg by (vm_compute; reflexivity).
  split; [repeat split; assumption|].
  pose proof (eval_dir_from_tag Demo.env None (Demo.start Demo.tagged)
                "run1" eq_refl eq_refl eq_refl Hne) as E.
  cbv zeta in E. destruct E as (Hclock & _ & _ & E).
  destruct (E _ Hc Hcfg) as (E1 & E2 & E3 & E4 & _).
  repeat split; assumption.
Defined.

Lemma eval_dir_from_clock_witness :
  let s := Demo.start Demo.ckpt_only in
  let o := eval_main Demo.env None s in
  (eval_dir (flags s) = "" /\ eval_tag (flags s) = "" /\
   eval_label (flags s) = "" /\ checkpoint_dir (flags s) <> "" /\
   res (get_configs Demo.env s) = Ok (tt, tt, Demo.eval_reader)) /\
  In ReadClock (evs o) /\
  In (MkdirP "/tmp/ckpt_eval_20261103-103107") (evs o) /\
  eval_tag (flags (st o)) = "20261103-103107"%string /\
  eval_dir (flags (st o)) = "/tmp/ckpt_eval_20261103-103107"%string /\
  In "/tmp/ckpt_eval_20261103-103107"%string (dirs (world (st o))).
Proof.
  cbv zeta.
  assert (checkpoint_dir (flags (Demo.start Demo.ckpt_only)) <> "") as Hc
    by (vm_compute; discriminate).
  assert (res (get_configs Demo.env (Demo.start Demo.ckpt_only))
          = Ok (tt, tt, Demo.eval_reader)) as Hcfg by (vm_compute; reflexivity).
  split; [repeat split; assumption|].
  pose proof (eval_dir_from_clock Demo.env None (Demo.start Demo.ckpt_only)
                eq_refl eq_refl) as E.
  cbv zeta in E. destruct E as (E & _).
  destruct (E eq_refl) as (_ & _ & E').
  exact (E' _ Hc Hcfg).
Defined.

(** C5 as stated fails: with a label, empty [eval_dir] and [eval_tag] flags
    do not lead to a tag from the clock; the tag is the label, the output
    directory comes from the label, and the run, which completes, creates no
    directory. *)
Lemma empty_eval_dir_and_tag_with_label :
  let s := Demo.start (set_eval_label "a" default_flags) in
  let o := eval_main Demo.env None s in
  eval_dir (flags s) = "" /\ eval_tag (flags s) = "" /\
  res o = Ok tt /\
  eval_tag (flags (st o)) = "a"%string /\
  eval_dir (flags (st o)) = "../checkpoints/eval/a"%string /\
  filter is_clock (evs o) = [] /\
  dirs (world (st o)) = [].
Proof.
  vm_compute. repeat split.
Qed.



(** A file with ten records yields the count ten. *)
Lemma num_examples_counts_records_witness :
  let o := eval_main Demo.env None (Demo.start Demo.tagged) in
  let a := Demo.args_in "/tmp/ckpt_eval_run1" in
  In (Evaluate a) (evs o) /\
  tf_record_iterator Demo.env (input_path (create_input_dict_fn a))
  = stream_of Demo.ten_records /\
  length Demo.ten_records = 10%nat /\
  num_examples a = 10 /\
  exists records,
    tf_record_iterator Demo.env (input_path (create_input_dict_fn a))
      = stream_of records /\
    num_examples a = Z.of_nat (length records).
Proof.
  cbv zeta.
  assert (In (Evaluate (Demo.args_in "/tmp/ckpt_eval_run1"))
            (evs (eval_main Demo.env None (Demo.start Demo.tagged)))) as H.
  { vm_compute. do 8 right. left. reflexivity. }
  split; [exact H|]. repeat (split; [reflexivity|]).
  exact (proj1 (num_examples_counts_records Demo.env None
                  (Demo.start Demo.tagged)) _ H).
Defined.

(** Two labels: two resets and two runs, in order, and [main] returns; an
    empty first label: its run ends the pass. *)
Lemma main_single_pass_witness :
  let s := Demo.start (set_eval_label "a,a" default_flags) in
  let o := main Demo.env 5 s in
  let s' := Demo.start (set_eval_label ",a" default_flags) in
  let o' := main Demo.env 5 s' in
  ((1 < length (Py.split "," (eval_label (flags s))))%nat /\
   res (for_each (Py.split "," (eval_label (flags s)))
          (run_label Demo.env) s) = Ok tt /\
   o = main Demo.env 1 s /\
   res o = Ok (Some tt) /\
   steps (evs o) = [Reset; Run "a" "" "" (Some 1);
                    Reset; Run "a" "" "" (Some 1)]) /\
  ((1 < length (Py.split "," (eval_label (flags s'))))%nat /\
   Py.split "," (eval_label (flags s')) = [] ++ ""%string :: ["a"%string] /\
   res (for_each [] (run_label Demo.env) s') = Ok tt /\
   (forall u, res (run_label Demo.env "" s') <> Ok u) /\
   res o' = Raise (AssertionError "`checkpoint_dir` is missing.") /\
   steps (evs o') = [Reset; Run "" "" "" (Some 1)]).
Proof.
  cbv zeta. split.
  - assert ((1 < length (Py.split ","
                           (eval_label
                              (flags (Demo.start
                                        (set_eval_label "a,a"
                                           default_flags))))))%nat)
      as H by (vm_compute; lia).
    assert (res (for_each
                   (Py.split ","
                      (eval_label
                         (flags (Demo.start
                                   (set_eval_label "a,a" default_flags)))))
                   (run_label Demo.env)
                   (Demo.start (set_eval_label "a,a" default_flags)))
            = Ok tt) as Hall by (vm_compute; reflexivity).
    pose proof (main_single_pass Demo.env 4
                  (Demo.start (set_eval_label "a,a" default_flags)) H) as E.
    cbv zeta in E. destruct E as (E1 & _ & _ & _ & E5).
    destruct (E5 Hall) as (E6 & E7).
    split; [exact H|]. split; [exact Hall|]. split; [exact E1|].
    split; [exact E6|]. rewrite E7. reflexivity.
  - assert ((1 < length (Py.split ","
                           (eval_label
                              (flags (Demo.start
                                        (set_eval_label ",a"
                                           default_flags))))))%nat)
      as H by (vm_compute; lia).
    assert (forall u,
              res (run_label Demo.env ""
                     (Demo.start (set_eval_label ",a" default_flags)))
              <> Ok u) as Hfail by (intro u; vm_compute; discriminate).
    pose proof (main_single_pass Demo.env 4
                  (Demo.start (set_eval_label ",a" default_flags)) H) as E.
    cbv zeta in E. destruct E as (_ & _ & _ & E4 & _).
    destruct (E4 [] ""%string ["a"%string] eq_refl eq_refl Hfail)
      as (F1 & _ & _ & _ & F5).
    split; [exact H|]. split; [reflexivity|]. split; [reflexivity|].
    split; [exact Hfail|]. split; [rewrite F1; reflexivity|].
    rewrite F5. reflexivity.
Defined.

(** C2 as stated fails: when the first label is empty, its run fails the
    assertion and the second label is never run. *)
Lemma second_label_never_runs :
  let s := Demo.start (set_eval_label ",a" default_flags) in
  let o := main Demo.env 1 s in
  Py.split "," (eval_label (flags s)) = [""%string; "a"%string] /\
  steps (evs o) = [Reset; Run "" "" "" (Some 1)] /\
  steps (evs o) <> pass_steps (Py.split "," (eval_label (flags s))) /\
  res o = Raise (AssertionError "`checkpoint_dir` is missing.").
Proof.
  vm_compute. repeat split. discriminate.
Qed.

(** The trailing comma of ["a,"]: the run for [a] completes, the run for the
    empty label fails the assertion. *)
Lemma empty_label_fails_assertion_witness :
  let s := Demo.start (set_eval_label "a," default_flags) in
  let o := main Demo.env 1 s in
  (eval_label (flags s) <> "" /\
   Py.split "," (eval_label (flags s)) = ["a"%string] ++ [""%string] /\
   res (for_each ["a"%string] (run_label Demo.env) s) = Ok tt) /\
  res o = Raise (AssertionError "`checkpoint_dir` is missing.") /\
  checkpoint_dir (flags (st o)) = "" /\
  steps (evs o) = [Reset; Run "a" "" "" (Some 1);
                   Reset; Run "" "" "" (Some 1)] /\
  map arg_eval_dir (evaluations (evs o)) = ["../checkpoints/eval/a"%string].
Proof.
  cbv zeta.
  assert (eval_label (flags (Demo.start (set_eval_label "a," default_flags)))
          <> "") as H1 by (vm_compute; discriminate).
  assert (res (for_each ["a"%string] (run_label Demo.env)
                 (Demo.start (set_eval_label "a," default_flags))) = Ok tt)
    as H3 by (vm_compute; reflexivity).
  split; [repeat split; assumption|].
  pose proof (empty_label_fails_assertion Demo.env 0
                (Demo.start (set_eval_label "a," default_flags))
                ["a"%string] [] H1 eq_refl H3) as E.
  cbv zeta in E. destruct E as (_ & E1 & _ & E2 & _ & E3).
  split; [exact E1|]. split; [exact E2|].
  split; [rewrite E3; reflexivity|].
  vm_compute. reflexivity.
Defined.




Lemma pipeline_file_configs_witness :
  let s := Demo.start Demo.all_paths in
  let o := get_configs_from_pipeline_file Demo.env s in
  res o = Ok (tt, tt, Demo.eval_reader) /\
  exists pipeline_config,
    parsed_from Demo.env (parse_pipeline Demo.env) "pipeline.config"
      pipeline_config /\
    Demo.eval_reader = eval_input_reader pipeline_config.
Proof.
  cbv zeta.
  assert (res (get_configs_from_pipeline_file Demo.env
                 (Demo.start Demo.all_paths))
          = Ok (tt, tt, Demo.eval_reader)) as H by (vm_compute; reflexivity).
  split; [exact H|].
  destruct (pipeline_file_configs Demo.env (Demo.start Demo.all_paths))
    as (_ & _ & _ & _ & E).
  destruct (E _ _ _ H) as (pc & E1 & _ & _ & E4).
  exists pc. split; [exact E1 | exact E4].
Defined.


Lemma checkpoint_dir_trailing_slash_witness :
  let s := Demo.start default_flags in
  ("/tmp/ckpt"%string <> "" /\ Py.endswith "/" "/tmp/ckpt" = false) /\
  res (get_configs_from_checkpoint_dir Demo.env
         (with_checkpoint_dir "/tmp/ckpt/" s))
  = Ok (tt, tt, Demo.eval_reader) /\
  evs (get_configs_from_checkpoint_dir Demo.env
         (with_checkpoint_dir "/tmp/ckpt/" s))
  = evs (get_configs_from_checkpoint_dir Demo.env
           (with_checkpoint_dir "/tmp/ckpt" s)).
Proof.
  cbv zeta.
  assert ("/tmp/ckpt"%string <> "") as H1 by discriminate.
  assert (Py.endswith "/" "/tmp/ckpt" = false) as H2 by reflexivity.
  split; [split; assumption|].
  destruct (checkpoint_dir_trailing_slash Demo.env (Demo.start default_flags)
              "/tmp/ckpt" H1 H2) as (E1 & E2).
  split; [|exact E2].
  vm_compute. reflexivity.
Defined.


Lemma evaluator_arguments_witness :
  let s := Demo.start Demo.tagged in
  let a := Demo.args_in "/tmp/ckpt_eval_run1" in
  In (Evaluate a) (evs (eval_main Demo.env None s)) /\
  max_number_of_evaluations a = None /\
  arg_gpu_fraction a = "0.0"%string /\
  arg_checkpoint_dir a = "/tmp/ckpt"%string.
Proof.
  cbv zeta.
  assert (In (Evaluate (Demo.args_in "/tmp/ckpt_eval_run1"))
            (evs (eval_main Demo.env None (Demo.start Demo.tagged)))) as H.
  { vm_compute. do 8 right. left. reflexivity. }
  split; [exact H|].
  destruct (evaluator_arguments Demo.env None (Demo.start Demo.tagged) _ H)
    as (E1 & _).
  split; [exact E1|]. split; reflexivity.
Defined.

(** With the label [a] the pipeline file of the label is read although the
    three files are given too. *)
Lemma label_selects_pipeline_file_witness :
  let s := Demo.start (set_eval_label "a" Demo.three_files) in
  let o := eval_main Demo.env None s in
  eval_label (flags s) <> "" /\
  eval_config_path (flags s) = "e.config"%string /\
  calls (evs o) = [FromPipelineFile] /\
  In (GFileOpen "../configs/test/a.config") (evs o).
Proof.
  cbv zeta.
  assert (eval_label
            (flags (Demo.start (set_eval_label "a" Demo.three_files)))
          <> "") as H by (vm_compute; discriminate).
  split; [exact H|]. split; [reflexivity|].
  destruct (label_selects_pipeline_file Demo.env None
              (Demo.start (set_eval_label "a" Demo.three_files)) H)
    as (_ & E1 & E2 & _).
  split; [exact E1 | exact E2].
Defined.

Lemma eval_dir_given_is_kept_witness :
  let s := Demo.start (set_eval_dir "out" Demo.tagged) in
  let o := eval_main Demo.env None s in
  (eval_label (flags s) = "" /\ eval_dir (flags s) <> "") /\
  st o = s /\
  dirs (world (st o)) = [] /\
  map arg_eval_dir (evaluations (evs o)) = ["out"%string].
Proof.
  cbv zeta.
  assert (eval_dir (flags (Demo.start (set_eval_dir "out" Demo.tagged)))
          <> "") as H by (vm_compute; discriminate).
  split; [split; [reflexivity | exact H]|].
  destruct (eval_dir_given_is_kept Demo.env None
              (Demo.start (set_eval_dir "out" Demo.tagged)) eq_refl H)
    as (E1 & _).
  split; [exact E1|]. rewrite E1.
  split; [reflexivity | vm_compute; reflexivity].
Defined.


(** The run in the concrete world returns after one call of the evaluator. *)
Lemma eval_main_evaluates_once_witness :
  let o := eval_main Demo.env None (Demo.start Demo.tagged) in
  res o = Ok tt /\
  exists a, evaluations (evs o) = [a] /\ evaluate Demo.env a = Returns.
Proof.
  cbv zeta.
  assert (res (eval_main Demo.env None (Demo.start Demo.tagged)) = Ok tt)
    as H by (vm_compute; reflexivity).
  split; [exact H|].
  destruct (eval_main_evaluates_once Demo.env None (Demo.start Demo.tagged))
    as (_ & _ & _ & E).
  exact (proj1 E H).
Defined.

Lemma config_failure_stops_early_witness :
  let s := Demo.start Faults.missing_pipeline in
  let o := eval_main Demo.env None s in
  (checkpoint_dir (flags (labelled s)) <> "" /\
   res (get_configs Demo.env (labelled s))
   = Raise (NotFoundError "missing.config")) /\
  res o = Raise (NotFoundError "missing.config") /\
  st o = labelled s /\
  evaluations (evs o) = [].
Proof.
  cbv zeta.
  assert (checkpoint_dir
            (flags (labelled (Demo.start Faults.missing_pipeline))) <> "")
    as H1 by (vm_compute; discriminate).
  assert (res (get_configs Demo.env
                 (labelled (Demo.start Faults.missing_pipeline)))
          = Raise (NotFoundError "missing.config")) as H2
    by (vm_compute; reflexivity).
  split; [split; assumption|].
  destruct (config_failure_stops_early Demo.env None
              (Demo.start Faults.missing_pipeline) _ H1 H2)
    as (E1 & _ & E2 & E3 & _).
  repeat split; assumption.
Defined.

Lemma empty_label_map_is_an_error_witness :
  let s := Demo.start Demo.tagged in
  let o := eval_main Faults.env_empty_labels None s in
  (checkpoint_dir (flags (labelled s)) <> "" /\
   res (get_configs Faults.env_empty_labels (labelled s))
   = Ok (tt, tt, Demo.eval_reader) /\
   tf_record_iterator Faults.env_empty_labels "eval.record"
   = stream_of Demo.ten_records /\
   load_labelmap Faults.env_empty_labels "labels.pbtxt" = inl []) /\
  res o = Raise (ValueError "max() arg is an empty sequence") /\
  evaluations (evs o) = [] /\
  dirs (world (st o)) = ["/tmp/ckpt_eval_run1"%string].
Proof.
  cbv zeta.
  assert (checkpoint_dir (flags (labelled (Demo.start Demo.tagged))) <> "")
    as H1 by (vm_compute; discriminate).
  assert (res (get_configs Faults.env_empty_labels
                 (labelled (Demo.start Demo.tagged)))
          = Ok (tt, tt, Demo.eval_reader)) as H2 by (vm_compute; reflexivity).
  split; [repeat split; assumption|].
  destruct (empty_label_map_is_an_error Faults.env_empty_labels None
              (Demo.start Demo.tagged) (tt, tt, Demo.eval_reader)
              Demo.ten_records H1 H2 eq_refl eq_refl)
    as (E1 & E2 & _).
  split; [exact E1|]. split; [exact E2|].
  vm_compute. reflexivity.
Defined.

Lemma record_scan_failure_witness :
  let s := Demo.start Demo.tagged in
  let o := eval_main Faults.env_corrupt None s in
  (checkpoint_dir (flags (labelled s)) <> "" /\
   res (get_configs Faults.env_corrupt (labelled s))
   = Ok (tt, tt, Demo.eval_reader) /\
   tf_record_iterator Faults.env_corrupt "eval.record"
   = stream_failing [[x00]; [x01]] (DataLossError "eval.record")) /\
  res o = Raise (DataLossError "eval.record") /\
  evaluations (evs o) = [].
Proof.
  cbv zeta.
  assert (checkpoint_dir (flags (labelled (Demo.start Demo.tagged))) <> "")
    as H1 by (vm_compute; discriminate).
  assert (res (get_configs Faults.env_corrupt
                 (labelled (Demo.start Demo.tagged)))
          = Ok (tt, tt, Demo.eval_reader)) as H2 by (vm_compute; reflexivity).
  split; [repeat split; assumption|].
  destruct (record_scan_failure Faults.env_corrupt None
              (Demo.start Demo.tagged) (tt, tt, Demo.eval_reader)
              [[x00]; [x01]] (DataLossError "eval.record") H1 H2 eq_refl)
    as (E1 & E2 & _).
  split; [exact E1 | exact E2].
Defined.


Lemma run_label_takes_paths_from_label_witness :
  let s := Demo.start Demo.all_paths in
  let o := run_label Demo.env "a" s in
  "a"%string <> "" /\
  checkpoint_dir (flags s) = "/tmp/ckpt"%string /\
  calls (evs o) = [FromPipelineFile] /\
  In (GFileOpen "../configs/test/a.config") (evs o) /\
  map arg_checkpoint_dir (evaluations (evs o))
  = ["../checkpoints/train/a"%string] /\
  world (st o) = world s.
Proof.
  cbv zeta.
  assert ("a"%string <> "") as H by discriminate.
  split; [exact H|]. split; [reflexivity|].
  destruct (run_label_takes_paths_from_label Demo.env "a"
              (Demo.start Demo.all_paths) H) as (E1 & E2 & _ & E4 & _).
  split; [exact E1|]. split; [apply E2; reflexivity|].
  split; [vm_compute; reflexivity | exact E4].
Defined.

Lemma multi_run_evaluations_witness :
  let s := Demo.start (set_eval_label "a,a" Demo.all_paths) in
  let o := main Demo.env 1 s in
  ((1 < length (Py.split "," (eval_label (flags s))))%nat /\
   res o = Ok (Some tt)) /\
  map arg_eval_dir (evaluations (evs o))
  = ["../checkpoints/eval/a"%string; "../checkpoints/eval/a"%string] /\
  world (st o) = world s.
Proof.
  cbv zeta.
  assert ((1 < length (Py.split ","
                         (eval_label
                            (flags (Demo.start
                                      (set_eval_label "a,a"
                                         Demo.all_paths))))))%nat)
    as H1 by (vm_compute; lia).
  assert (res (main Demo.env 1
                 (Demo.start (set_eval_label "a,a" Demo.all_paths)))
          = Ok (Some tt)) as H2 by (vm_compute; reflexivity).
  split; [split; assumption|].
  destruct (multi_run_evaluations Demo.env 0
              (Demo.start (set_eval_label "a,a" Demo.all_paths))
              (Some tt) H1 H2) as (_ & E2 & _ & _ & E5).
  split; [exact E2 | exact E5].
Defined.

Lemma label_list_round_trip_witness :
  let fl := set_eval_label "a,,b" default_flags in
  In ""%string (Py.split "," (eval_label fl)) /\
  str_count "," "" = 0%nat /\
  length (Py.split "," (eval_label fl)) = 3%nat /\
  str_join "," (Py.split "," (eval_label fl)) = "a,,b"%string.
Proof.
  cbv zeta.
  assert (In ""%string
            (Py.split "," (eval_label (set_eval_label "a,,b" default_flags))))
    as H by (vm_compute; right; left; reflexivity).
  split; [exact H|].
  destruct (label_list_round_trip (set_eval_label "a,,b" default_flags))
    as (E1 & E2 & E3).
  split; [exact (E2 _ H)|]. split; [exact E1 | exact E3].
Defined.
